(** * HUD renderer and weapon positioner: a shallow embedding

    The development follows [ui.py] (class [UI]) and [weapon.py] (class
    [Weapon]).  Both classes talk to pygame; the parts of pygame they use
    ([Rect], [Surface.get_rect], [draw.rect], [blit], [image.load]) are
    modelled in the first half of the file as the library documents them.

    Numbers.  Player amounts ([health], [energy], [exp], the entries of
    [stats]) are Python ints or floats; each such value is a rational number
    ([Q]).  What the float operations and pygame do to these values (the
    rounding of a quotient or a product to a double, the conversion of a
    float to the integer a [pygame.Rect] stores) differs between machines
    and pygame releases, and is a parameter of the model: a [Host].
    Pixel coordinates are the integer fields of a [pygame.Rect] ([Z]); the
    model does not bound them, so the [TypeError] pygame raises for a value
    outside the range of a C int, and the errors Python raises for amounts
    that no double holds (nan, inf, huge ints), are outside it. *)

From Stdlib Require Import ZArith QArith Qround Qabs Lia Lqa String Ascii DecimalString.
From stdpp Require Import base option list strings gmap.

Local Open Scope Z_scope.

(** ** Python values and exceptions *)

(** The exceptions the two classes raise on values in range: a zero
    divisor, an index or a key that is not there, a file that is not
    there. *)
Inductive exn : Type :=
| ZeroDivisionError
| IndexError
| KeyError (key : string)
| FileNotFoundError (path : string).

Inductive result (A : Type) : Type :=
| Ok (a : A)
| Raise (e : exn).
Arguments Ok {A} a.
Arguments Raise {A} e.

(** [int(x)] on a number, and the conversion pygame applies to a float that
    is stored in an integer field: both drop the fractional part, rounding
    toward zero. *)
Definition py_int (q : Q) : Z := Z.quot (Qnum q) (Zpos (Qden q)).

(** Rounding to the nearest integer, halves away from zero: the other way
    a pygame release stores a float in an integer field. *)
Definition py_round (q : Q) : Z :=
  if 0 <=? Qnum q then Qfloor (q + (1 # 2)) else Qceiling (q - (1 # 2)).

(** [str(n)] for an int: decimal digits, with a leading minus sign. *)
Definition py_str (n : Z) : string := NilZero.string_of_int (Z.to_int n).

(** ** The arithmetic of the host

    [rnd] is the rounding of a real result to a double, as [/] and [*] on
    floats apply it; [to_int] is what pygame stores when a float is
    assigned to an integer field of a [Rect] (some releases drop the
    fraction, others round to the nearest integer).  The model asks of them
    only what holds of every such pair on the numbers a HUD meets: both are
    monotone, both keep whole numbers, rounding to a double moves a number
    by at most [2^-53] of its size, and storing it in an integer moves it by
    less than one.  The laws are stated for all numbers; a machine obeys
    them for whole numbers up to [2^53] (every C int is one), for doubles
    that neither overflow nor underflow, and for floats within the range of
    a C int, which is where a [Rect] that pygame accepts lives. *)
Definition unit_roundoff : Q := 1 # 9007199254740992.

Record Host : Type := mkHost {
  rnd : Q -> Q;
  to_int : Q -> Z;
  rnd_mono : forall p q : Q, (p <= q)%Q -> (rnd p <= rnd q)%Q;
  rnd_whole : forall k : Z, (rnd (inject_Z k) == inject_Z k)%Q;
  rnd_close : forall q : Q, (Qabs (rnd q - q) <= unit_roundoff * Qabs q)%Q;
  to_int_mono : forall p q : Q, (p <= q)%Q -> to_int p <= to_int q;
  to_int_whole : forall k : Z, to_int (inject_Z k) = k;
  to_int_close : forall q : Q, (Qabs (inject_Z (to_int q) - q) < 1)%Q
}.

(** [a / b], true division: the quotient, rounded to a double. *)
Definition py_truediv (host : Host) (a b : Q) : result Q :=
  if Qeq_bool b 0 then Raise ZeroDivisionError else Ok (rnd host (a / b)%Q).

(** [n * x] for an int [n] and a float [x]: the product, rounded to a
    double. *)
Definition py_mul (host : Host) (n : Z) (x : Q) : Q :=
  rnd host (inject_Z n * x)%Q.

(** [l[i]] for a list and an int index: a negative index counts from the
    end, anything outside [-len(l), len(l) - 1] raises [IndexError]. *)
Definition py_index {A : Type} (l : list A) (i : Z) : result A :=
  let n := Z.of_nat (length l) in
  let j := if i <? 0 then n + i else i in
  if (j <? 0) || (n <=? j) then Raise IndexError
  else match l !! Z.to_nat j with
       | Some a => Ok a
       | None => Raise IndexError
       end.

(** [d[k]] for a dict. *)
Definition py_getitem {V : Type} (d : gmap string V) (k : string) : result V :=
  match d !! k with
  | Some v => Ok v
  | None => Raise (KeyError k)
  end.

(** [s.split(sep)] for a separator of one character. *)
Fixpoint split (sep : ascii) (s : string) : list string :=
  match s with
  | EmptyString => [EmptyString]
  | String c rest =>
      if Ascii.eqb c sep then EmptyString :: split sep rest
      else match split sep rest with
           | h :: t => String c h :: t
           | [] => [String c EmptyString]
           end
  end.

(** ** Computations with effects

    A method runs against a mutable world of type [S] and either returns or
    raises.  What was done before an exception stays done, so the world is
    returned in both cases. *)

Definition M (S A : Type) : Type := S -> result A * S.

Definition ret {S A : Type} (a : A) : M S A := fun s => (Ok a, s).

Definition bind {S A B : Type} (m : M S A) (k : A -> M S B) : M S B :=
  fun s => match m s with
           | (Ok a, s') => k a s'
           | (Raise e, s') => (Raise e, s')
           end.

Definition lift {S A : Type} (r : result A) : M S A := fun s => (r, s).

Declare Scope py_scope.
Delimit Scope py_scope with py.
Notation "x <- m ;; k" := (bind m (fun x => k))
  (at level 100, m at next level, right associativity) : py_scope.
Notation "m ;;; k" := (bind m (fun _ => k))
  (at level 100, right associativity) : py_scope.

(** ** pygame.Rect *)

Record Rect : Type := mkRect { left : Z; top : Z; width : Z; height : Z }.

Definition Point : Type := Z * Z.

(** [pygame.math.Vector2]: a pair of floats. *)
Definition Vector2 : Type := (Q * Q)%type.

(** The named points of a rectangle that the two classes read or assign.
    Halves are C integer divisions; the sizes halved in this program
    (images, texts, the item box) are not negative. *)
Inductive Anchor : Type :=
| midleft | midright | midtop | midbottom | center | bottomright.

Definition get_anchor (a : Anchor) (r : Rect) : Point :=
  match a with
  | midleft => (left r, top r + Z.quot (height r) 2)
  | midright => (left r + width r, top r + Z.quot (height r) 2)
  | midtop => (left r + Z.quot (width r) 2, top r)
  | midbottom => (left r + Z.quot (width r) 2, top r + height r)
  | center => (left r + Z.quot (width r) 2, top r + Z.quot (height r) 2)
  | bottomright => (left r + width r, top r + height r)
  end.

(** Assigning a named point moves the rectangle and keeps its size. *)
Definition set_anchor (a : Anchor) (p : Point) (r : Rect) : Rect :=
  let '(px, py) := p in
  match a with
  | midleft => mkRect px (py - Z.quot (height r) 2) (width r) (height r)
  | midright =>
      mkRect (px - width r) (py - Z.quot (height r) 2) (width r) (height r)
  | midtop => mkRect (px - Z.quot (width r) 2) py (width r) (height r)
  | midbottom =>
      mkRect (px - Z.quot (width r) 2) (py - height r) (width r) (height r)
  | center =>
      mkRect (px - Z.quot (width r) 2) (py - Z.quot (height r) 2)
             (width r) (height r)
  | bottomright => mkRect (px - width r) (py - height r) (width r) (height r)
  end.

(** [rect.width = v] with a float [v]: the field is an integer, and the
    host decides which one. *)
Definition set_width (host : Host) (v : Q) (r : Rect) : Rect :=
  mkRect (left r) (top r) (to_int host v) (height r).

(** [rect.inflate(dx, dy)]: a new rectangle grown around the same centre. *)
Definition inflate (dx dy : Z) (r : Rect) : Rect :=
  mkRect (left r - Z.quot dx 2) (top r - Z.quot dy 2)
         (width r + dx) (height r + dy).

(** [tuple + Vector2]: the tuple has no such addition, so [Vector2.__radd__]
    answers, with a vector. *)
Definition vec_radd (p : Point) (v : Vector2) : Vector2 :=
  (inject_Z (fst p) + fst v, inject_Z (snd p) + snd v)%Q.

(** A vector handed to a [Rect] setter is read as two integers.  The
    vectors of this program have whole components, which every conversion
    keeps; the fraction, were there one, is dropped here. *)
Definition vec_to_point (v : Vector2) : Point := (py_int (fst v), py_int (snd v)).

(** ** Surfaces, fonts and the display *)

(** Where the pixels of a surface come from: an image file, or a text
    rendered by a font ([font.render(text, antialias, color)]). *)
Inductive Pixels : Type :=
| FromFile (path : string)
| Rendered (text : string) (antialias : bool) (color : string).

Record Surface : Type := mkSurface { pixels : Pixels; surf_w : Z; surf_h : Z }.

(** [surf.get_rect(anchor = p)]: the rectangle of the surface's size at the
    origin, moved so that [anchor] is [p]. *)
Definition get_rect (surf : Surface) (a : Anchor) (p : Point) : Rect :=
  set_anchor a p (mkRect 0 0 (surf_w surf) (surf_h surf)).

(** A loaded font: the file, the point size, and the pixel size it gives to
    each text ([font.size]). *)
Record Font : Type :=
  mkFont { font_file : string; font_pt : Z; text_size : string -> Z * Z }.

Definition render (f : Font) (text : string) (antialias : bool)
    (color : string) : Surface :=
  mkSurface (Rendered text antialias color)
            (fst (text_size f text)) (snd (text_size f text)).

(** One call that changes the display surface. [border] is the last argument
    of [pygame.draw.rect]: 0 fills the rectangle, a positive value draws an
    outline of that thickness. *)
Inductive DrawOp : Type :=
| DrawRect (color : string) (r : Rect) (border : Z)
| Blit (src : Surface) (dest : Rect).

(** The display surface: its size, and the draw calls it has received,
    oldest first. *)
Record Screen : Type := mkScreen { get_size : Z * Z; drawn : list DrawOp }.

Definition draw_rect (color : string) (r : Rect) (border : Z) : M Screen unit :=
  fun s => (Ok tt, mkScreen (get_size s) (drawn s ++ [DrawRect color r border])).

Definition blit (src : Surface) (dest : Rect) : M Screen unit :=
  fun s => (Ok tt, mkScreen (get_size s) (drawn s ++ [Blit src dest])).

Definition surface_size : M Screen (Z * Z) := fun s => (Ok (get_size s), s).

(** The files pygame can open: images by path (with their pixel size), fonts
    by path (with the metrics of each point size). *)
Record Assets : Type :=
  mkAssets { images : gmap string (Z * Z);
             fonts : gmap string (Z -> string -> Z * Z) }.

(** [pygame.image.load(path).convert_alpha()] *)
Definition image_load (fs : Assets) (path : string) : result Surface :=
  match images fs !! path with
  | Some (w, h) => Ok (mkSurface (FromFile path) w h)
  | None => Raise (FileNotFoundError path)
  end.

(** [pygame.font.Font(path, size)] *)
Definition font_load (fs : Assets) (path : string) (pt : Z) : result Font :=
  match fonts fs !! path with
  | Some metrics => Ok (mkFont path pt (metrics pt))
  | None => Raise (FileNotFoundError path)
  end.

(** ** settings.py

    The module is imported with [from settings import *] and is not part of
    the two files; the names the code reads from it are the fields of this
    record.  [weapon_data] and [magic_data] are dicts of dicts, kept in
    insertion order; of a row only the string-valued entries are kept. *)
Record Settings : Type := mkSettings {
  UI_FONT : string;
  UI_FONT_SIZE : Z;
  HEALTH_BAR_WIDTH : Z;
  ENERGY_BAR_WIDTH : Z;
  BAR_HEIGHT : Z;
  ITEM_BOX_SIZE : Z;
  UI_BACKGROUND_COLOR : string;
  UI_BORDER_COLOR : string;
  UI_BORDER_COLOR_ACTIVE : string;
  HEALTH_COLOR : string;
  ENERGY_COLOR : string;
  TEXT_COLOR : string;
  weapon_data : list (string * gmap string string);
  magic_data : list (string * gmap string string)
}.

(** ** The player, as the two classes read it *)
Record Player : Type := mkPlayer {
  health : Q;
  energy : Q;
  stats : gmap string Q;
  weapon_index : Z;
  magic_index : Z;
  able_to_switch_weapon : bool;
  able_to_switch_magic : bool;
  exp : Q;
  status : string;
  weapon : string;
  rect : Rect
}.

(** [player.rect], under a name that the sprite's own [rect] does not hide. *)
Definition player_rect (p : Player) : Rect := rect p.

(** ** ui.py *)
Module UI.

(** The attributes of a [UI] object.  [display_surface] is the one display
    of the program: it is the world the methods run against, not a field. *)
Record t : Type := mk {
  font : Font;
  health_bar_rect : Rect;
  enery_bar_rect : Rect;
  weapon_graphics : list Surface;
  magic_graphics : list Surface
}.

Section Methods.

Variable host : Host.
Variable cfg : Settings.
Local Open Scope py_scope.

(** The two loops of [__init__]:
    [for row in data.values(): path = row['graphic']; ...append(load(path))] *)
Fixpoint load_graphics (fs : Assets) (rows : list (string * gmap string string))
    : result (list Surface) :=
  match rows with
  | [] => Ok []
  | (_, row) :: rest =>
      match py_getitem row "graphic" with
      | Raise e => Raise e
      | Ok path =>
          match image_load fs path with
          | Raise e => Raise e
          | Ok img =>
              match load_graphics fs rest with
              | Raise e => Raise e
              | Ok imgs => Ok (img :: imgs)
              end
          end
      end
  end.

Definition init (fs : Assets) : M Screen t :=
  f <- lift (font_load fs (UI_FONT cfg) (UI_FONT_SIZE cfg)) ;;
  let health_bar_rect := mkRect 10 10 (HEALTH_BAR_WIDTH cfg) (BAR_HEIGHT cfg) in
  let enery_bar_rect := mkRect 10 34 (ENERGY_BAR_WIDTH cfg) (BAR_HEIGHT cfg) in
  weapon_graphics <- lift (load_graphics fs (weapon_data cfg)) ;;
  magic_graphics <- lift (load_graphics fs (magic_data cfg)) ;;
  ret (mk f health_bar_rect enery_bar_rect weapon_graphics magic_graphics).

(** [bg_rect.copy()] gives a rectangle of its own, so the assignment to
    [current_rect.width] leaves [bg_rect] as it was. *)
Definition show_bar (self : t) (current_amount max_amount : Q)
    (bg_rect : Rect) (color : string) : M Screen unit :=
  draw_rect (UI_BACKGROUND_COLOR cfg) bg_rect 0 ;;;
  ratio <- lift (py_truediv host current_amount max_amount) ;;
  let current_width := py_mul host (width bg_rect) ratio in
  let current_rect := bg_rect in
  let current_rect := set_width host current_width current_rect in
  draw_rect color current_rect 0 ;;;
  draw_rect (UI_BORDER_COLOR cfg) bg_rect 3.

Definition show_exp (self : t) (exp : Q) : M Screen unit :=
  let text_surf := render (font self) (py_str (py_int exp)) false (TEXT_COLOR cfg) in
  sz <- surface_size ;;
  let x := fst sz - 20 in
  sz <- surface_size ;;
  let y := snd sz - 20 in
  let text_rect := get_rect text_surf bottomright (x, y) in
  draw_rect (UI_BACKGROUND_COLOR cfg) (inflate 10 10 text_rect) 0 ;;;
  blit text_surf text_rect ;;;
  draw_rect (UI_BACKGROUND_COLOR cfg) (inflate 10 10 text_rect) 3.

Definition selection_box (self : t) (x y : Z) (is_switching : bool)
    : M Screen Rect :=
  let bg_rect := mkRect x y (ITEM_BOX_SIZE cfg) (ITEM_BOX_SIZE cfg) in
  draw_rect (UI_BACKGROUND_COLOR cfg) bg_rect 0 ;;;
  (if is_switching
   then draw_rect (UI_BORDER_COLOR_ACTIVE cfg) bg_rect 3
   else draw_rect (UI_BORDER_COLOR cfg) bg_rect 3) ;;;
  ret bg_rect.

Definition weapon_overlay (self : t) (weapon_index : Z) (is_switching : bool)
    : M Screen unit :=
  bg_rect <- selection_box self 10 630 is_switching ;;
  weapon_img <- lift (py_index (weapon_graphics self) weapon_index) ;;
  let weapon_rect := get_rect weapon_img center (get_anchor center bg_rect) in
  blit weapon_img weapon_rect.

Definition magic_overlay (self : t) (magic_index : Z) (is_switching : bool)
    : M Screen unit :=
  bg_rect <- selection_box self 80 620 is_switching ;;
  magic_img <- lift (py_index (magic_graphics self) magic_index) ;;
  let magic_rect := get_rect magic_img center (get_anchor center bg_rect) in
  blit magic_img magic_rect.

(** The arguments of each call are read just before the call, so a missing
    key of [player.stats] raises after the draws of the calls before it. *)
Definition display (self : t) (player : Player) : M Screen unit :=
  max_health <- lift (py_getitem (stats player) "health") ;;
  show_bar self (health player) max_health (health_bar_rect self)
           (HEALTH_COLOR cfg) ;;;
  max_energy <- lift (py_getitem (stats player) "energy") ;;
  show_bar self (energy player) max_energy (enery_bar_rect self)
           (ENERGY_COLOR cfg) ;;;
  weapon_overlay self (weapon_index player)
                 (negb (able_to_switch_weapon player)) ;;;
  magic_overlay self (magic_index player)
                (negb (able_to_switch_magic player)) ;;;
  show_exp self (exp player).

End Methods.

End UI.

(** ** weapon.py *)
Module Weapon.

(** The sprite: [rect] is [None] while the attribute has not been assigned. *)
Record t : Type := mk {
  sprite_type : string;
  image : Surface;
  rect : option Rect;
  groups : list string
}.

(** What the constructor asks of pygame, in the order of the calls: an image
    load, or a [get_rect] with its keyword, the point given and the
    rectangle that came back. *)
Inductive Call : Type :=
| Load (path : string)
| GetRect (surf : Surface) (a : Anchor) (p : Point) (r : Rect).

Definition load (fs : Assets) (path : string) : M (list Call) Surface :=
  fun tr => (image_load fs path, tr ++ [Load path]).

Definition call_get_rect (surf : Surface) (a : Anchor) (p : Point)
    : M (list Call) Rect :=
  fun tr => let r := get_rect surf a p in (Ok r, tr ++ [GetRect surf a p r]).

Local Open Scope py_scope.

(** [super().__init__(groups)] records the groups in the sprite.  The last
    branch evaluates [get_rect] as a statement and drops its value. *)
Definition init (fs : Assets) (player : Player) (groups : list string)
    : M (list Call) t :=
  let sprite_type := "weapon"%string in
  direction <- lift (py_index (split "_" (status player)) 0) ;;
  let full_path :=
    ("./graphics/weapons/" ++ weapon player ++ "/" ++ direction ++ ".png")%string in
  image <- load fs full_path ;;
  let prect := player_rect player in
  if String.eqb direction "right" then
    r <- call_get_rect image midleft
           (vec_to_point (vec_radd (get_anchor midright prect) (0, 16)%Q)) ;;
    ret (mk sprite_type image (Some r) groups)
  else if String.eqb direction "left" then
    r <- call_get_rect image midright
           (vec_to_point (vec_radd (get_anchor midleft prect) (0, 16)%Q)) ;;
    ret (mk sprite_type image (Some r) groups)
  else if String.eqb direction "up" then
    r <- call_get_rect image midbottom
           (vec_to_point (vec_radd (get_anchor midtop prect) (-10, 0)%Q)) ;;
    ret (mk sprite_type image (Some r) groups)
  else if String.eqb direction "down" then
    r <- call_get_rect image midtop
           (vec_to_point (vec_radd (get_anchor midbottom prect) (-10, 0)%Q)) ;;
    ret (mk sprite_type image (Some r) groups)
  else
    _ <- call_get_rect image center (get_anchor center prect) ;;
    ret (mk sprite_type image None groups).

End Weapon.

(** ** Observations on a run *)

(** The draw calls a computation adds to a screen. *)
Definition draws_of {A : Type} (m : M Screen A) (s : Screen) : list DrawOp :=
  drop (length (drawn s)) (drawn (snd (m s))).

(** The rectangle [show_bar] lays over the background: the second of its
    three draws. *)
Definition fill_rect (host : Host) (cfg : Settings) (ui : UI.t)
    (current_amount max_amount : Q) (bg_rect : Rect) (color : string)
    (s : Screen) : option Rect :=
  match draws_of (UI.show_bar host cfg ui current_amount max_amount bg_rect
                              color) s with
  | [DrawRect _ _ _; DrawRect _ r _; DrawRect _ _ _] => Some r
  | _ => None
  end.

Definition fill_width (host : Host) (cfg : Settings) (ui : UI.t)
    (current_amount max_amount : Q) (bg_rect : Rect) (color : string)
    (s : Screen) : option Z :=
  width <$> fill_rect host cfg ui current_amount max_amount bg_rect color s.

(** The width [bg_rect.width * (current / max)] of exact arithmetic. *)
Definition ideal_width (current_amount max_amount : Q) (bg_rect : Rect) : Q :=
  (inject_Z (width bg_rect) * (current_amount / max_amount))%Q.

(** The width [show_bar] stores in the fill rectangle: the quotient rounded
    to a double, times the width of the bar, rounded to a double, stored in
    an integer. *)
Definition stored_width (host : Host) (current_amount max_amount : Q)
    (bg_rect : Rect) : Z :=
  to_int host (py_mul host (width bg_rect)
                      (rnd host (current_amount / max_amount)%Q)).

(** The fill rectangle of a bar whose maximum is not zero: the background
    with the stored width. *)
Definition fill_of (host : Host) (current_amount max_amount : Q)
    (bg_rect : Rect) : Rect :=
  mkRect (left bg_rect) (top bg_rect)
         (stored_width host current_amount max_amount bg_rect)
         (height bg_rect).

(** The fill width is the ideal width up to an error of at most [tol]
    pixels. *)
Definition fill_width_within (tol : Q) (host : Host) (cfg : Settings)
    (ui : UI.t) (current_amount max_amount : Q) (bg_rect : Rect)
    (color : string) (s : Screen) : Prop :=
  exists w : Z,
    fill_width host cfg ui current_amount max_amount bg_rect color s = Some w /\
    (Qabs (inject_Z w - ideal_width current_amount max_amount bg_rect)
     <= tol)%Q.

(** Between two current amounts the fill does not get narrower: whatever
    fills are drawn for [c1] and for [c2], the first is at most as wide as
    the second. *)
Definition fill_width_nondecreasing (host : Host) (cfg : Settings) (ui : UI.t)
    (c1 c2 max_amount : Q) (bg_rect : Rect) (color : string) (s : Screen)
    : Prop :=
  forall w1 w2 : Z,
    fill_width host cfg ui c1 max_amount bg_rect color s = Some w1 ->
    fill_width host cfg ui c2 max_amount bg_rect color s = Some w2 ->
    w1 <= w2.

(** The draws of a whole frame: the five elements of the HUD, in the order
    of [display], each as its own method draws it. *)
Definition hud_draws (host : Host) (cfg : Settings) (ui : UI.t) (p : Player)
    (max_health max_energy : Q) (s : Screen) : list DrawOp :=
  draws_of (UI.show_bar host cfg ui (health p) max_health
                        (UI.health_bar_rect ui) (HEALTH_COLOR cfg)) s ++
  draws_of (UI.show_bar host cfg ui (energy p) max_energy
                        (UI.enery_bar_rect ui) (ENERGY_COLOR cfg)) s ++
  draws_of (UI.weapon_overlay cfg ui (weapon_index p)
                              (negb (able_to_switch_weapon p))) s ++
  draws_of (UI.magic_overlay cfg ui (magic_index p)
                             (negb (able_to_switch_magic p))) s ++
  draws_of (UI.show_exp cfg ui (exp p)) s.

(** [display] performs the whole frame: the two maxima are read from
    [player.stats] and the screen gains exactly the draws of the frame. *)
Definition display_performs_frame (host : Host) (cfg : Settings) (ui : UI.t)
    (p : Player) (s : Screen) : Prop :=
  exists max_health max_energy : Q,
    stats p !! "health"%string = Some max_health /\
    stats p !! "energy"%string = Some max_energy /\
    draws_of (UI.display host cfg ui p) s =
      hud_draws host cfg ui p max_health max_energy s.

(** The square [selection_box] draws at [(x, y)], and the colour of its
    outline. *)
Definition box (cfg : Settings) (x y : Z) : Rect :=
  mkRect x y (ITEM_BOX_SIZE cfg) (ITEM_BOX_SIZE cfg).

Definition border_color (cfg : Settings) (is_switching : bool) : string :=
  if is_switching then UI_BORDER_COLOR_ACTIVE cfg else UI_BORDER_COLOR cfg.

(** Both overlays follow one pattern: the box, then the icon centred in it. *)
Definition overlay_run (cfg : Settings) (icons : list Surface) (x y : Z) (i : Z)
    (is_switching : bool) (s : Screen) : result unit * Screen :=
  let boxed := [DrawRect (UI_BACKGROUND_COLOR cfg) (box cfg x y) 0;
                DrawRect (border_color cfg is_switching) (box cfg x y) 3] in
  match py_index icons i with
  | Ok img =>
      (Ok tt,
       mkScreen (get_size s)
                (drawn s ++ boxed ++
                 [Blit img (get_rect img center (get_anchor center (box cfg x y)))]))
  | Raise e => (Raise e, mkScreen (get_size s) (drawn s ++ boxed))
  end.

(** ** The direction of a status, as the positioner is described *)

(** The part of a string before the first [sep] (all of it when there is
    none). *)
Fixpoint before (sep : ascii) (s : string) : string :=
  match s with
  | EmptyString => EmptyString
  | String c rest =>
      if Ascii.eqb c sep then EmptyString else String c (before sep rest)
  end.

Definition status_prefix (status : string) : string := before "_" status.

(** The anchor rule: for each recognized direction, the point of the weapon
    rectangle that is set, the point of the player rectangle it is set from,
    and the offset added. *)
Definition direction_table (direction : string)
    : option (Anchor * Anchor * Point) :=
  if String.eqb direction "right" then Some (midleft, midright, (0, 16))
  else if String.eqb direction "left" then Some (midright, midleft, (0, 16))
  else if String.eqb direction "up" then Some (midbottom, midtop, (-10, 0))
  else if String.eqb direction "down" then Some (midtop, midbottom, (-10, 0))
  else None.

(** The file the constructor loads: [weapons/{weapon}/{direction}.png]. *)
Definition weapon_path (p : Player) : string :=
  ("./graphics/weapons/" ++ weapon p ++ "/" ++ status_prefix (status p)
   ++ ".png")%string.

Definition offset (p d : Point) : Point := (fst p + fst d, snd p + snd d).

(** Two rectangles of positive size share a pixel. *)
Definition overlaps (a b : Rect) : Prop :=
  left a < left b + width b /\ left b < left a + width a /\
  top a < top b + height b /\ top b < top a + height a.

(** ** A sample game, to run the definitions on *)
Module Sample.

Definition icon (name : string) : Surface := mkSurface (FromFile name) 64 64.

Definition cfg : Settings :=
  mkSettings "joystix.ttf" 18 200 140 20 80
             "#222222" "#111111" "gold" "red" "blue" "#EEEEEE" [] [].

Definition font : Font :=
  mkFont "joystix.ttf" 18 (fun s => (Z.of_nat (String.length s) * 12, 18)).

Definition ui : UI.t :=
  UI.mk font (mkRect 10 10 200 20) (mkRect 10 34 140 20)
        [icon "sword"; icon "lance"; icon "axe"; icon "rapier"]
        [icon "flame"; icon "heal"].

Definition screen : Screen := mkScreen (1280, 720) [].

Definition player (status : string) : Player :=
  mkPlayer 50 48 (<["health" := 100%Q]> (<["energy" := 60%Q]> ∅))
           2 0 true false 1234 status "sword" (mkRect 100 100 64 64).

Definition files : Assets :=
  mkAssets (<["./graphics/weapons/sword/right.png" := (40, 20)]>
             (<["./graphics/weapons/sword/up.png" := (20, 40)]>
               (<["./graphics/weapons/sword/dead.png" := (40, 20)]> ∅)))
           ∅.

End Sample.

(** An entry of [weapon_data] or [magic_data] and the icon it loads as: the
    image file named by the row's ['graphic'], at the size of that file. *)
Definition loads_as (fs : Assets) (entry : string * gmap string string)
    (img : Surface) : Prop :=
  exists (path : string) (w h : Z),
    snd entry !! "graphic"%string = Some path /\
    images fs !! path = Some (w, h) /\
    img = mkSurface (FromFile path) w h.

(** A second sample: settings with three weapons and two magics, and the
    files they name. *)
Module SampleInit.

Definition entry (name path : string) : string * gmap string string :=
  (name, <["graphic" := path]> ∅).

Definition cfg : Settings :=
  mkSettings "joystix.ttf" 18 200 140 20 80
             "#222222" "#111111" "gold" "red" "blue" "#EEEEEE"
             [entry "sword" "sword.png"; entry "lance" "lance.png";
              entry "axe" "axe.png"]
             [entry "flame" "flame.png"; entry "heal" "heal.png"].

Definition metrics (pt : Z) (text : string) : Z * Z :=
  (Z.of_nat (String.length text) * 12, pt).

Definition files : Assets :=
  mkAssets (<["sword.png" := (64, 64)]>
             (<["lance.png" := (64, 64)]>
               (<["axe.png" := (60, 62)]>
                 (<["flame.png" := (64, 64)]>
                   (<["heal.png" := (64, 64)]> ∅)))))
           (<["joystix.ttf" := metrics]> ∅).

Definition ui : UI.t :=
  UI.mk (mkFont "joystix.ttf" 18 (metrics 18))
        (mkRect 10 10 200 20) (mkRect 10 34 140 20)
        [mkSurface (FromFile "sword.png") 64 64;
         mkSurface (FromFile "lance.png") 64 64;
         mkSurface (FromFile "axe.png") 60 62]
        [mkSurface (FromFile "flame.png") 64 64;
         mkSurface (FromFile "heal.png") 64 64].

End SampleInit.

(** * Two hosts

    A pygame that drops the fraction of the width it stores and a pygame
    that rounds it to the nearest whole number.  Both compute quotients and
    products exactly, the case of the laws in which [rnd] moves nothing.
    The properties below are proved for every host, from the laws alone;
    these two run the examples. *)

(** ** Truncation toward zero *)

Lemma py_int_floor_ceiling (q : Q) :
  py_int q = if 0 <=? Qnum q then Qfloor q else Qceiling q.
Proof.
  destruct q as [n d]. unfold py_int, Qceiling, Qfloor. simpl.
  destruct (Z.leb_spec 0 n) as [Hn | Hn].
  - apply Z.quot_div_nonneg; lia.
  - rewrite <- (Z.opp_involutive n) at 1.
    rewrite Z.quot_opp_l by lia.
    f_equal. apply Z.quot_div_nonneg; lia.
Qed.

Lemma Qnum_nonneg (q : Q) : 0 <= Qnum q <-> (0 <= q)%Q.
Proof. destruct q as [n d]. unfold Qle. simpl. lia. Qed.

Lemma py_int_mono (p q : Q) : (p <= q)%Q -> py_int p <= py_int q.
Proof.
  intros Hpq. rewrite !py_int_floor_ceiling.
  destruct (Z.leb_spec 0 (Qnum p)) as [Hp | Hp];
    destruct (Z.leb_spec 0 (Qnum q)) as [Hq | Hq].
  - by apply Qfloor_resp_le.
  - apply Qnum_nonneg in Hp.
    assert (0 <= q)%Q as Hq' by (eapply Qle_trans; eauto).
    apply Qnum_nonneg in Hq'. lia.
  - apply Qnum_nonneg in Hq.
    transitivity 0.
    + change 0 with (Qceiling 0). apply Qceiling_resp_le.
      destruct p as [n d]. unfold Qle. simpl in *. lia.
    + change 0 with (Qfloor 0). by apply Qfloor_resp_le.
  - by apply Qceiling_resp_le.
Qed.

Lemma py_int_Qeq (p q : Q) : (p == q)%Q -> py_int p = py_int q.
Proof.
  intros H. apply Z.le_antisymm; apply py_int_mono; rewrite H; apply Qle_refl.
Qed.

Lemma py_int_inject_Z (k : Z) : py_int (inject_Z k) = k.
Proof. unfold py_int. simpl. apply Z.quot_1_r. Qed.

(** Dropping the fraction moves a number by less than one. *)
Lemma py_int_close (q : Q) : (Qabs (inject_Z (py_int q) - q) < 1)%Q.
Proof.
  apply Qabs_Qlt_condition. rewrite py_int_floor_ceiling.
  pose proof (Qfloor_le q) as Hf1. pose proof (Qlt_floor q) as Hf2.
  pose proof (Qle_ceiling q) as Hc1. pose proof (Qceiling_lt q) as Hc2.
  rewrite inject_Z_plus in Hf2. unfold Z.sub in Hc2.
  rewrite inject_Z_plus in Hc2.
  change (inject_Z (- (1))) with (-1 # 1)%Q in Hc2.
  change (inject_Z 1) with 1%Q in Hf2.
  destruct (0 <=? Qnum q); split; lra.
Qed.

Lemma py_int_le_nonneg (q : Q) : (0 <= q)%Q -> (inject_Z (py_int q) <= q)%Q.
Proof.
  intros H. rewrite py_int_floor_ceiling. apply Qnum_nonneg in H.
  destruct (Z.leb_spec 0 (Qnum q)); [apply Qfloor_le | lia].
Qed.

(** ** Rounding to the nearest integer *)

Lemma py_round_mono (p q : Q) : (p <= q)%Q -> py_round p <= py_round q.
Proof.
  intros Hpq. unfold py_round.
  destruct (Z.leb_spec 0 (Qnum p)) as [Hp | Hp];
    destruct (Z.leb_spec 0 (Qnum q)) as [Hq | Hq].
  - apply Qfloor_resp_le. lra.
  - apply Qnum_nonneg in Hp.
    assert (0 <= q)%Q as Hq' by (eapply Qle_trans; eauto).
    apply Qnum_nonneg in Hq'. lia.
  - apply Qnum_nonneg in Hq.
    assert (p <= 0)%Q as Hp' by (destruct p; unfold Qle; simpl in *; lia).
    transitivity 0.
    + change 0 with (Qceiling 0). apply Qceiling_resp_le. lra.
    + change 0 with (Qfloor 0). apply Qfloor_resp_le. lra.
  - apply Qceiling_resp_le. lra.
Qed.

Lemma py_round_inject_Z (k : Z) : py_round (inject_Z k) = k.
Proof.
  unfold py_round, Qceiling, Qfloor. simpl.
  destruct (Z.leb_spec 0 k); simpl.
  - rewrite !Z.mul_1_r. symmetry. apply (Z.div_unique _ 2 k 1); lia.
  - change (Z.pos (1 * 2)) with 2.
    rewrite <- (Z.div_unique (- (k * 2 + - (1) * 1)) 2 (- k) 1); lia.
Qed.

Lemma py_round_close (q : Q) : (Qabs (inject_Z (py_round q) - q) < 1)%Q.
Proof.
  apply Qabs_Qlt_condition. unfold py_round.
  pose proof (Qfloor_le (q + (1 # 2))) as Hf1.
  pose proof (Qlt_floor (q + (1 # 2))) as Hf2.
  pose proof (Qle_ceiling (q - (1 # 2))) as Hc1.
  pose proof (Qceiling_lt (q - (1 # 2))) as Hc2.
  rewrite inject_Z_plus in Hf2. unfold Z.sub in Hc2.
  rewrite inject_Z_plus in Hc2.
  change (inject_Z (- (1))) with (-1 # 1)%Q in Hc2.
  change (inject_Z 1) with 1%Q in Hf2.
  destruct (0 <=? Qnum q); split; lra.
Qed.

(** ** The two hosts *)

Lemma exact_close (q : Q) : (Qabs (q - q) <= unit_roundoff * Qabs q)%Q.
Proof.
  assert (q - q == 0)%Q as -> by ring. simpl.
  apply Qmult_le_0_compat; [done | apply Qabs_nonneg].
Qed.

Definition truncating_host : Host :=
  mkHost (fun q => q) py_int
         (fun p q H => H) (fun k => Qeq_refl _) exact_close
         py_int_mono py_int_inject_Z py_int_close.

Definition rounding_host : Host :=
  mkHost (fun q => q) py_round
         (fun p q H => H) (fun k => Qeq_refl _) exact_close
         py_round_mono py_round_inject_Z py_round_close.

(** * Properties *)

(** ** What every host does *)

Section HostFacts.

Variable host : Host.

Lemma rnd_Qeq (p q : Q) : (p == q)%Q -> (rnd host p == rnd host q)%Q.
Proof.
  intros H. apply Qle_antisym; apply rnd_mono; rewrite H; apply Qle_refl.
Qed.

Lemma to_int_Qeq (p q : Q) : (p == q)%Q -> to_int host p = to_int host q.
Proof.
  intros H. apply Z.le_antisymm; apply to_int_mono; rewrite H; apply Qle_refl.
Qed.

Lemma Qmult_le_nonneg_l (x y z : Q) :
  (0 <= z)%Q -> (x <= y)%Q -> (z * x <= z * y)%Q.
Proof.
  intros Hz Hxy. rewrite !(Qmult_comm z). by apply Qmult_le_compat_r.
Qed.

Lemma Qpos_nonzero (m : Q) : (0 < m)%Q -> ~ (m == 0)%Q.
Proof. intros Hm H. rewrite H in Hm. by apply Qlt_irrefl in Hm. Qed.

(** A larger amount never stores a narrower fill, on a bar that has a
    width. *)
Lemma stored_width_mono (c1 c2 m : Q) (bg : Rect) :
  0 <= width bg -> (0 < m)%Q -> (c1 <= c2)%Q ->
  stored_width host c1 m bg <= stored_width host c2 m bg.
Proof.
  intros Hw Hm Hc. unfold stored_width, py_mul.
  apply to_int_mono, rnd_mono.
  assert (0 <= inject_Z (width bg))%Q as Hw'.
  { change 0%Q with (inject_Z 0). by rewrite <- Zle_Qle. }
  assert (0 <= / m)%Q as Hinv by (apply Qinv_le_0_compat; lra).
  rewrite !(Qmult_comm (inject_Z (width bg))).
  apply Qmult_le_compat_r; [| done].
  apply rnd_mono. unfold Qdiv. by apply Qmult_le_compat_r.
Qed.

(** A whole multiple of the maximum stores that multiple of the width. *)
Lemma stored_width_multiple (k : Z) (c m : Q) (bg : Rect) :
  ~ (m == 0)%Q -> (c == inject_Z k * m)%Q ->
  stored_width host c m bg = width bg * k.
Proof.
  intros Hm Hc. unfold stored_width, py_mul.
  rewrite <- (to_int_whole host (width bg * k)). apply to_int_Qeq.
  rewrite <- (rnd_whole host (width bg * k)). apply rnd_Qeq.
  rewrite inject_Z_mult. apply Qmult_comp; [reflexivity |].
  rewrite <- (rnd_whole host k). apply rnd_Qeq.
  rewrite Hc. by field.
Qed.

(** The stored width is less than a pixel, and the rounding of two float
    operations, away from the ideal width. *)
Lemma stored_width_close (c m : Q) (bg : Rect) :
  (Qabs (inject_Z (stored_width host c m bg) - ideal_width c m bg)
   < 1 + 3 * unit_roundoff * Qabs (ideal_width c m bg))%Q.
Proof.
  unfold stored_width, py_mul, ideal_width.
  set (W := inject_Z (width bg)). set (a := (c / m)%Q).
  set (r := rnd host a). set (p := rnd host (W * r)%Q).
  pose proof (rnd_close host a) as H1. fold r in H1.
  pose proof (rnd_close host (W * r)%Q) as H2. fold p in H2.
  pose proof (to_int_close host p) as H3.
  set (t := inject_Z (to_int host p)) in *.
  set (I := (W * a)%Q).
  assert (Qabs (W * r - I) <= unit_roundoff * Qabs I)%Q as HE.
  { assert (W * r - I == W * (r - a))%Q as -> by (unfold I; ring).
    unfold I. rewrite !Qabs_Qmult.
    rewrite (Qmult_comm unit_roundoff), <- Qmult_assoc.
    apply Qmult_le_nonneg_l; [apply Qabs_nonneg |].
    by rewrite (Qmult_comm (Qabs a)). }
  assert (Qabs (W * r) <= Qabs I + Qabs (W * r - I))%Q as HX.
  { assert (W * r == I + (W * r - I))%Q as Heq by ring.
    rewrite Heq at 1. apply Qabs_triangle. }
  assert (t - I == (t - p) + (p - W * r) + (W * r - I))%Q as -> by ring.
  eapply Qle_lt_trans; [apply Qabs_triangle |].
  eapply Qle_lt_trans;
    [apply Qplus_le_compat; [apply Qabs_triangle | apply Qle_refl] |].
  pose proof (Qabs_nonneg I) as HI.
  pose proof (Qabs_nonneg (W * r - I)) as HE0.
  assert (0 <= unit_roundoff)%Q as Hu0 by done.
  assert (unit_roundoff <= 1)%Q as Hu1 by done.
  assert (unit_roundoff * Qabs (W * r) <= 2 * unit_roundoff * Qabs I)%Q as HY.
  { eapply Qle_trans;
      [apply Qmult_le_nonneg_l; [exact Hu0 | exact HX] |].
    set (QI := Qabs I) in *. set (E := Qabs (W * r - I)) in *.
    nra. }
  set (QI := Qabs I) in *.
  lra.
Qed.

End HostFacts.


(** ** Reading the screen *)

Lemma draws_of_appended {A : Type} (m : M Screen A) (s : Screen)
    (ops : list DrawOp) :
  drawn (snd (m s)) = drawn s ++ ops -> draws_of m s = ops.
Proof. intros H. unfold draws_of. rewrite H. apply drop_app_length. Qed.

(** ** show_bar *)

Section ShowBar.

Variables (host : Host) (cfg : Settings) (ui : UI.t).

(** What one call of [show_bar] does, in full. *)
Lemma show_bar_run (c m : Q) (bg : Rect) (color : string) (s : Screen) :
  UI.show_bar host cfg ui c m bg color s =
  if Qeq_bool m 0
  then (Raise ZeroDivisionError,
        mkScreen (get_size s)
                 (drawn s ++ [DrawRect (UI_BACKGROUND_COLOR cfg) bg 0]))
  else (Ok tt,
        mkScreen (get_size s)
                 (drawn s ++
                  [DrawRect (UI_BACKGROUND_COLOR cfg) bg 0;
                   DrawRect color (fill_of host c m bg) 0;
                   DrawRect (UI_BORDER_COLOR cfg) bg 3])).
Proof.
  unfold UI.show_bar, bind, lift, draw_rect, py_truediv. simpl.
  destruct (Qeq_bool m 0); simpl; [done |].
  by rewrite <- !app_assoc.
Qed.

Lemma show_bar_draws (c m : Q) (bg : Rect) (color : string) (s : Screen) :
  draws_of (UI.show_bar host cfg ui c m bg color) s =
  if Qeq_bool m 0
  then [DrawRect (UI_BACKGROUND_COLOR cfg) bg 0]
  else [DrawRect (UI_BACKGROUND_COLOR cfg) bg 0;
        DrawRect color (fill_of host c m bg) 0;
        DrawRect (UI_BORDER_COLOR cfg) bg 3].
Proof.
  apply draws_of_appended. rewrite show_bar_run.
  by destruct (Qeq_bool m 0).
Qed.

Lemma fill_rect_run (c m : Q) (bg : Rect) (color : string) (s : Screen) :
  fill_rect host cfg ui c m bg color s =
  if Qeq_bool m 0 then None else Some (fill_of host c m bg).
Proof.
  unfold fill_rect. rewrite show_bar_draws. by destruct (Qeq_bool m 0).
Qed.

Lemma fill_width_run (c m : Q) (bg : Rect) (color : string) (s : Screen) :
  fill_width host cfg ui c m bg color s =
  if Qeq_bool m 0 then None else Some (stored_width host c m bg).
Proof.
  unfold fill_width. rewrite fill_rect_run. by destruct (Qeq_bool m 0).
Qed.

Lemma Qeq_bool_pos (m : Q) : (0 < m)%Q -> Qeq_bool m 0 = false.
Proof.
  intros H. destruct (Qeq_bool m 0) eqn:E; [| done].
  apply Qeq_bool_eq in E. rewrite E in H. by apply Qlt_irrefl in H.
Qed.

Lemma Qeq_bool_nonzero (m : Q) : ~ (m == 0)%Q -> Qeq_bool m 0 = false.
Proof.
  intros H. destruct (Qeq_bool m 0) eqn:E; [| done].
  by apply Qeq_bool_eq in E.
Qed.

End ShowBar.

(** One third of a bar of 200 pixels: a host that drops the fraction stores
    66, a host that rounds stores 67; the ideal width is 66.67. *)
Example show_bar_one_third :
  fill_width truncating_host Sample.cfg Sample.ui 1 3 (mkRect 10 10 200 20)
             "red" Sample.screen = Some 66 /\
  fill_width rounding_host Sample.cfg Sample.ui 1 3 (mkRect 10 10 200 20)
             "red" Sample.screen = Some 67.
Proof. split; reflexivity. Qed.

(** C1, as stated, fails, and on every host: with [current = 1], [max = 3]
    and a background of 200 pixels the ideal fill width is 200/3, and the
    width of the rectangle drawn is a whole number; no whole number is
    within a quarter of a pixel of 200/3. *)
Lemma show_bar_fill_width_not_exact :
  ~ (exists host : Host,
       fill_width_within (1 # 4) host Sample.cfg Sample.ui 1 3
         (mkRect 10 10 200 20) "red" Sample.screen).
Proof.
  intros [host [w [_ Hclose]]].
  apply Qabs_Qle_condition in Hclose. destruct Hclose as [Hlo Hhi].
  unfold ideal_width, Qle in Hlo, Hhi. simpl in Hlo, Hhi. lia.
Qed.

(** C1, amended: for [0 <= current <= max] and [max > 0], the fill rectangle
    keeps the position and height of the background, and its width is the
    whole number the host stores for the float
    [bg_rect.width * (current / max)]: it is less than one pixel, plus the
    rounding of the two float operations (at most [3 * 2^-53] of the ideal
    width), away from the ideal width [bg_rect.width * (current / max)]. *)
Theorem show_bar_fill_width_close (host : Host) (cfg : Settings)
    (ui : UI.t) (c m : Q) (bg : Rect) (color : string) (s : Screen) :
  (0 <= c)%Q -> (c <= m)%Q -> (0 < m)%Q ->
  exists r : Rect,
    fill_rect host cfg ui c m bg color s = Some r /\
    (left r, top r, height r) = (left bg, top bg, height bg) /\
    width r = stored_width host c m bg /\
    (Qabs (inject_Z (width r) - ideal_width c m bg)
     < 1 + 3 * unit_roundoff * Qabs (ideal_width c m bg))%Q.
Proof.
  intros _ _ Hm. rewrite fill_rect_run, (Qeq_bool_pos m Hm).
  eexists. split; [reflexivity |]. simpl. repeat split.
  apply stored_width_close.
Qed.

Lemma show_bar_fill_width_close_witness :
  exists r : Rect,
    fill_rect rounding_host Sample.cfg Sample.ui 1 3 (mkRect 10 10 200 20)
              "red" Sample.screen = Some r /\
    (left r, top r, height r) = (10, 10, 20) /\
    width r = stored_width rounding_host 1 3 (mkRect 10 10 200 20) /\
    (Qabs (inject_Z (width r) - ideal_width 1 3 (mkRect 10 10 200 20))
     < 1 + 3 * unit_roundoff * Qabs (ideal_width 1 3 (mkRect 10 10 200 20)))%Q.
Proof.
  apply (show_bar_fill_width_close rounding_host Sample.cfg Sample.ui 1 3
           (mkRect 10 10 200 20) "red" Sample.screen);
    vm_compute; discriminate || reflexivity.
Defined.

(** C3: [show_bar] raises [ZeroDivisionError] exactly when [max == 0]; and
    nothing stands between the ratio and the width: whenever [show_bar]
    returns, the fill it drew has the width the host stores for the float
    [bg_rect.width * (current / max)], whatever [current] and [max] are. *)
Theorem show_bar_zero_division (host : Host) (cfg : Settings) (ui : UI.t)
    (c m : Q) (bg : Rect) (color : string) (s : Screen) :
  (fst (UI.show_bar host cfg ui c m bg color s) = Raise ZeroDivisionError
   <-> (m == 0)%Q) /\
  (fst (UI.show_bar host cfg ui c m bg color s) = Ok tt ->
   fill_width host cfg ui c m bg color s =
     Some (to_int host (py_mul host (width bg) (rnd host (c / m))))).
Proof.
  rewrite show_bar_run, fill_width_run.
  destruct (Qeq_bool m 0) eqn:E; simpl.
  - apply Qeq_bool_eq in E. repeat split; done.
  - apply Qeq_bool_neq in E. repeat split; done.
Qed.

(** No clamp: twice the maximum gives a fill twice as wide as the bar, on
    every host. *)
Example show_bar_overflows (host : Host) :
  fill_width host Sample.cfg Sample.ui 200 100 (mkRect 10 10 200 20) "red"
             Sample.screen = Some 400.
Proof.
  rewrite fill_width_run. simpl. f_equal.
  by apply (stored_width_multiple host 2).
Qed.

(** C8, as stated, fails, and on every host: on a bar rectangle of width
    -200 the fill for a current amount of 0 is 0 pixels wide and the fill
    for a current amount of 100, the maximum, is -200 pixels wide. *)
Lemma show_bar_fill_width_not_monotone :
  ~ (exists host : Host,
       fill_width_nondecreasing host Sample.cfg Sample.ui 0 100 100
         (mkRect 10 10 (-200) 20) "red" Sample.screen).
Proof.
  intros [host H].
  specialize (H 0 (-200)). rewrite !fill_width_run in H. simpl in H.
  assert (0 <= -200); [| lia].
  apply H; f_equal.
  - by apply (stored_width_multiple host 0).
  - by apply (stored_width_multiple host 1).
Qed.

(** C8, amended: for a maximum above zero and a bar rectangle of
    non-negative width, a larger current amount never gives a narrower
    fill: if [current1 <= current2], the fill drawn for [current1] is at
    most as wide as the fill drawn for [current2]. *)
Theorem show_bar_fill_width_monotone (host : Host) (cfg : Settings)
    (ui : UI.t) (c1 c2 m : Q) (bg : Rect) (color : string) (s : Screen) :
  (0 < m)%Q -> 0 <= width bg -> (c1 <= c2)%Q ->
  fill_width_nondecreasing host cfg ui c1 c2 m bg color s.
Proof.
  intros Hm Hw Hc w1 w2. rewrite !fill_width_run, (Qeq_bool_pos m Hm).
  intros [= <-] [= <-]. by apply stored_width_mono.
Qed.

Lemma show_bar_fill_width_monotone_witness :
  fill_width_nondecreasing rounding_host Sample.cfg Sample.ui 1 2 3
    (mkRect 10 10 200 20) "red" Sample.screen.
Proof.
  apply (show_bar_fill_width_monotone rounding_host Sample.cfg Sample.ui 1 2 3
           (mkRect 10 10 200 20) "red" Sample.screen);
    vm_compute; discriminate || reflexivity.
Defined.

(** The two fills of the witness: 67 and 133 pixels. *)
Example show_bar_thirds :
  fill_width rounding_host Sample.cfg Sample.ui 1 3 (mkRect 10 10 200 20)
             "red" Sample.screen = Some 67 /\
  fill_width rounding_host Sample.cfg Sample.ui 2 3 (mkRect 10 10 200 20)
             "red" Sample.screen = Some 133.
Proof. split; reflexivity. Qed.

(** ** selection_box and the two overlays *)

Section Overlays.

Variables (cfg : Settings) (ui : UI.t).

Lemma selection_box_run (x y : Z) (is_switching : bool) (s : Screen) :
  UI.selection_box cfg ui x y is_switching s =
  (Ok (box cfg x y),
   mkScreen (get_size s)
            (drawn s ++ [DrawRect (UI_BACKGROUND_COLOR cfg) (box cfg x y) 0;
                         DrawRect (border_color cfg is_switching) (box cfg x y) 3])).
Proof.
  unfold UI.selection_box, bind, draw_rect, ret, border_color, box.
  destruct is_switching; simpl; by rewrite <- app_assoc.
Qed.

(** An index that [py_index] accepts, and the position it reads. *)
Lemma py_index_spec {A : Type} (l : list A) (i : Z) :
  let n := Z.of_nat (length l) in
  (- n <= i < n ->
   exists a, py_index l i = Ok a /\
             l !! Z.to_nat (if i <? 0 then n + i else i) = Some a) /\
  (i < - n \/ n <= i -> py_index l i = Raise IndexError).
Proof.
  intros n. unfold py_index. fold n. split.
  - intros Hi.
    set (j := if i <? 0 then n + i else i).
    assert (0 <= j < n) as Hj by (unfold j; destruct (Z.ltb_spec i 0); lia).
    destruct (Z.ltb_spec j 0); [lia |].
    destruct (Z.leb_spec n j); [lia |]. simpl.
    destruct (lookup_lt_is_Some_2 l (Z.to_nat j)) as [a Ha]; [lia |].
    rewrite Ha. eauto.
  - intros Hi.
    destruct (Z.ltb_spec i 0).
    + destruct (Z.ltb_spec (n + i) 0); [done | lia].
    + destruct (Z.ltb_spec i 0); [lia |].
      destruct (Z.leb_spec n i); [done | lia].
Qed.

Lemma weapon_overlay_run (i : Z) (is_switching : bool) (s : Screen) :
  UI.weapon_overlay cfg ui i is_switching s =
  overlay_run cfg (UI.weapon_graphics ui) 10 630 i is_switching s.
Proof.
  unfold UI.weapon_overlay, bind, overlay_run. rewrite selection_box_run.
  unfold lift, blit. destruct (py_index _ i); simpl; [| done].
  by rewrite <- app_assoc.
Qed.

Lemma magic_overlay_run (i : Z) (is_switching : bool) (s : Screen) :
  UI.magic_overlay cfg ui i is_switching s =
  overlay_run cfg (UI.magic_graphics ui) 80 620 i is_switching s.
Proof.
  unfold UI.magic_overlay, bind, overlay_run. rewrite selection_box_run.
  unfold lift, blit. destruct (py_index _ i); simpl; [| done].
  by rewrite <- app_assoc.
Qed.

(** The overlay pattern under Python's indexing. *)
Lemma overlay_run_index (icons : list Surface) (x y i : Z) (sw : bool)
    (s : Screen) :
  let n := Z.of_nat (length icons) in
  (fst (overlay_run cfg icons x y i sw s) = Raise IndexError
   <-> i < - n \/ n <= i) /\
  (forall e, fst (overlay_run cfg icons x y i sw s) = Raise e -> e = IndexError) /\
  (- n <= i < 0 ->
   exists img,
     icons !! Z.to_nat (n + i) = Some img /\
     overlay_run cfg icons x y i sw s =
     (Ok tt,
      mkScreen (get_size s)
               (drawn s ++
                [DrawRect (UI_BACKGROUND_COLOR cfg) (box cfg x y) 0;
                 DrawRect (border_color cfg sw) (box cfg x y) 3;
                 Blit img (get_rect img center (get_anchor center (box cfg x y)))]))).
Proof.
  intros n. destruct (py_index_spec icons i) as [Hin Hout]. fold n in Hin, Hout.
  unfold overlay_run. split; [| split].
  - split.
    + intros H. destruct (Z.lt_ge_cases i (- n)) as [| Hlo]; [lia |].
      destruct (Z.lt_ge_cases i n) as [Hhi |]; [| lia].
      destruct (Hin (conj Hlo Hhi)) as [a [Ha _]]. by rewrite Ha in H.
    + intros H. by rewrite (Hout H).
  - intros e. destruct (Z.lt_ge_cases i (- n)) as [| Hlo].
    + rewrite Hout by lia. simpl. congruence.
    + destruct (Z.lt_ge_cases i n) as [Hhi |].
      * destruct (Hin (conj Hlo Hhi)) as [a [Ha _]]. by rewrite Ha.
      * rewrite Hout by lia. simpl. congruence.
  - intros Hi. destruct Hin as [a [Ha Hl]]; [lia |].
    destruct (Z.ltb_spec i 0); [| lia].
    exists a. split; [done |]. by rewrite Ha.
Qed.

End Overlays.

(** C6: [selection_box(x, y, True)] and [selection_box(x, y, False)] return
    the same rectangle, the square of side [ITEM_BOX_SIZE] at [(x, y)]; both
    fill it with the background colour and then outline it 3 pixels thick,
    and the colour of that outline is all that differs. *)
Theorem selection_box_same_geometry (cfg : Settings) (ui : UI.t) (x y : Z)
    (s : Screen) :
  let r := mkRect x y (ITEM_BOX_SIZE cfg) (ITEM_BOX_SIZE cfg) in
  fst (UI.selection_box cfg ui x y true s) = Ok r /\
  fst (UI.selection_box cfg ui x y false s) = Ok r /\
  draws_of (UI.selection_box cfg ui x y true) s =
    [DrawRect (UI_BACKGROUND_COLOR cfg) r 0;
     DrawRect (UI_BORDER_COLOR_ACTIVE cfg) r 3] /\
  draws_of (UI.selection_box cfg ui x y false) s =
    [DrawRect (UI_BACKGROUND_COLOR cfg) r 0;
     DrawRect (UI_BORDER_COLOR cfg) r 3].
Proof.
  intros r. rewrite !selection_box_run. repeat split.
  - apply draws_of_appended. by rewrite selection_box_run.
  - apply draws_of_appended. by rewrite selection_box_run.
Qed.

(** C9: a negative index in [[-n, -1]], [n] being the number of loaded
    icons, raises nothing: the overlay draws its box and then the icon at
    position [n + index].  [IndexError] is raised exactly when the index is
    outside [[-n, n - 1]], and nothing else is ever raised.  This holds for
    [weapon_overlay] over [weapon_graphics] and for [magic_overlay] over
    [magic_graphics]. *)
Theorem overlay_negative_index_wraps (cfg : Settings) (ui : UI.t) (i : Z)
    (sw : bool) (s : Screen) :
  let nw := Z.of_nat (length (UI.weapon_graphics ui)) in
  let nm := Z.of_nat (length (UI.magic_graphics ui)) in
  ((fst (UI.weapon_overlay cfg ui i sw s) = Raise IndexError
    <-> i < - nw \/ nw <= i) /\
   (forall e, fst (UI.weapon_overlay cfg ui i sw s) = Raise e ->
              e = IndexError) /\
   (- nw <= i < 0 ->
    exists img,
      UI.weapon_graphics ui !! Z.to_nat (nw + i) = Some img /\
      fst (UI.weapon_overlay cfg ui i sw s) = Ok tt /\
      draws_of (UI.weapon_overlay cfg ui i sw) s =
        [DrawRect (UI_BACKGROUND_COLOR cfg) (box cfg 10 630) 0;
         DrawRect (border_color cfg sw) (box cfg 10 630) 3;
         Blit img (get_rect img center
                            (get_anchor center (box cfg 10 630)))])) /\
  ((fst (UI.magic_overlay cfg ui i sw s) = Raise IndexError
    <-> i < - nm \/ nm <= i) /\
   (forall e, fst (UI.magic_overlay cfg ui i sw s) = Raise e ->
              e = IndexError) /\
   (- nm <= i < 0 ->
    exists img,
      UI.magic_graphics ui !! Z.to_nat (nm + i) = Some img /\
      fst (UI.magic_overlay cfg ui i sw s) = Ok tt /\
      draws_of (UI.magic_overlay cfg ui i sw) s =
        [DrawRect (UI_BACKGROUND_COLOR cfg) (box cfg 80 620) 0;
         DrawRect (border_color cfg sw) (box cfg 80 620) 3;
         Blit img (get_rect img center
                            (get_anchor center (box cfg 80 620)))])).
Proof.
  intros nw nm. split.
  - destruct (overlay_run_index cfg (UI.weapon_graphics ui) 10 630 i sw s)
      as [Hiff [Honly Hwrap]].
    rewrite <- weapon_overlay_run in Hiff, Honly, Hwrap.
    repeat split; try apply Hiff; [apply Honly |].
    intros Hi. destruct (Hwrap Hi) as [img [Himg Hrun]].
    exists img. split; [done |]. split; [by rewrite Hrun |].
    apply draws_of_appended. by rewrite Hrun.
  - destruct (overlay_run_index cfg (UI.magic_graphics ui) 80 620 i sw s)
      as [Hiff [Honly Hwrap]].
    rewrite <- magic_overlay_run in Hiff, Honly, Hwrap.
    repeat split; try apply Hiff; [apply Honly |].
    intros Hi. destruct (Hwrap Hi) as [img [Himg Hrun]].
    exists img. split; [done |]. split; [by rewrite Hrun |].
    apply draws_of_appended. by rewrite Hrun.
Qed.

(** With four weapon icons, index -1 draws the fourth and index -5 raises. *)
Example weapon_overlay_last_icon :
  UI.weapon_overlay Sample.cfg Sample.ui (-1) true Sample.screen =
  (Ok tt,
   mkScreen (1280, 720)
     [DrawRect "#222222" (mkRect 10 630 80 80) 0;
      DrawRect "gold" (mkRect 10 630 80 80) 3;
      Blit (Sample.icon "rapier") (mkRect 18 638 64 64)]) /\
  fst (UI.weapon_overlay Sample.cfg Sample.ui (-5) true Sample.screen) =
    Raise IndexError /\
  fst (UI.weapon_overlay Sample.cfg Sample.ui 4 true Sample.screen) =
    Raise IndexError.
Proof. repeat split. Qed.

(** ** show_exp *)

Lemma show_exp_run (cfg : Settings) (ui : UI.t) (e : Q) (s : Screen) :
  let text_surf :=
    render (UI.font ui) (py_str (py_int e)) false (TEXT_COLOR cfg) in
  let text_rect :=
    get_rect text_surf bottomright
             (fst (get_size s) - 20, snd (get_size s) - 20) in
  UI.show_exp cfg ui e s =
  (Ok tt,
   mkScreen (get_size s)
            (drawn s ++
             [DrawRect (UI_BACKGROUND_COLOR cfg) (inflate 10 10 text_rect) 0;
              Blit text_surf text_rect;
              DrawRect (UI_BACKGROUND_COLOR cfg) (inflate 10 10 text_rect) 3])).
Proof.
  intros text_surf text_rect.
  unfold UI.show_exp, bind, surface_size, draw_rect, blit. simpl.
  by rewrite <- !app_assoc.
Qed.

(** Assigning a named point and reading it back gives the point assigned. *)
Lemma get_set_anchor (a : Anchor) (p : Point) (r : Rect) :
  get_anchor a (set_anchor a p r) = p.
Proof. destruct p as [px py], a; simpl; f_equal; lia. Qed.

Lemma set_anchor_size (a : Anchor) (p : Point) (r : Rect) :
  width (set_anchor a p r) = width r /\ height (set_anchor a p r) = height r.
Proof. by destruct p as [px py], a. Qed.

(** C7: whatever [exp] is, [show_exp] blits the text, [str(int(exp))] in the
    text colour, at a rectangle whose bottom-right corner is
    [(surface_width - 20, surface_height - 20)]; the size the font gives the
    text does not move that corner. *)
Theorem show_exp_anchor (cfg : Settings) (ui : UI.t) (e : Q) (s : Screen) :
  exists (text_surf : Surface) (text_rect frame : Rect) (c1 c2 : string),
    draws_of (UI.show_exp cfg ui e) s =
      [DrawRect c1 frame 0; Blit text_surf text_rect; DrawRect c2 frame 3] /\
    pixels text_surf = Rendered (py_str (py_int e)) false (TEXT_COLOR cfg) /\
    (width text_rect, height text_rect) =
      text_size (UI.font ui) (py_str (py_int e)) /\
    get_anchor bottomright text_rect =
      (fst (get_size s) - 20, snd (get_size s) - 20).
Proof.
  do 5 eexists. split.
  - apply draws_of_appended. by rewrite show_exp_run.
  - split; [done |]. split.
    + simpl. by destruct (text_size _ _).
    + apply get_set_anchor.
Qed.

(** C10: in [show_exp] the 3-pixel outline drawn after the text has the
    colour of the filled rectangle drawn before it, the UI background
    colour, and the same rectangle: the text rectangle grown by 10 in each
    axis. *)
Theorem show_exp_border_is_background (cfg : Settings) (ui : UI.t) (e : Q)
    (s : Screen) :
  exists (text_surf : Surface) (text_rect : Rect),
    draws_of (UI.show_exp cfg ui e) s =
      [DrawRect (UI_BACKGROUND_COLOR cfg) (inflate 10 10 text_rect) 0;
       Blit text_surf text_rect;
       DrawRect (UI_BACKGROUND_COLOR cfg) (inflate 10 10 text_rect) 3].
Proof.
  do 2 eexists. apply draws_of_appended. by rewrite show_exp_run.
Qed.

(** The frame of the experience text on the sample screen: four digits of
    12 by 18 pixels, right-aligned 20 pixels from the corner. *)
Example show_exp_sample :
  draws_of (UI.show_exp Sample.cfg Sample.ui (12347 # 10)) Sample.screen =
  [DrawRect "#222222" (mkRect 1207 677 58 28) 0;
   Blit (mkSurface (Rendered "1234" false "#EEEEEE") 48 18)
        (mkRect 1212 682 48 18);
   DrawRect "#222222" (mkRect 1207 677 58 28) 3].
Proof. reflexivity. Qed.

(** ** display *)

(** What a method draws does not depend on what is already on the screen. *)
Lemma show_bar_draws_any (host : Host) (cfg : Settings) (ui : UI.t) (c m : Q)
    (bg : Rect) (color : string) (s s' : Screen) :
  draws_of (UI.show_bar host cfg ui c m bg color) s' =
  draws_of (UI.show_bar host cfg ui c m bg color) s.
Proof. by rewrite !show_bar_draws. Qed.

(** A frame in which nothing is raised: the two maxima are there and not
    zero, and the two indices are in range. *)
Lemma display_run_ok (host : Host) (cfg : Settings) (ui : UI.t) (p : Player)
    (s : Screen) (max_health max_energy : Q) (weapon_img magic_img : Surface) :
  stats p !! "health"%string = Some max_health -> ~ (max_health == 0)%Q ->
  stats p !! "energy"%string = Some max_energy -> ~ (max_energy == 0)%Q ->
  py_index (UI.weapon_graphics ui) (weapon_index p) = Ok weapon_img ->
  py_index (UI.magic_graphics ui) (magic_index p) = Ok magic_img ->
  UI.display host cfg ui p s =
  (Ok tt,
   mkScreen (get_size s)
            (drawn s ++ hud_draws host cfg ui p max_health max_energy s)).
Proof.
  intros Hh Hh0 He He0 Hw Hm. unfold hud_draws.
  apply Qeq_bool_nonzero in Hh0, He0.
  rewrite !show_bar_draws, Hh0, He0.
  rewrite (draws_of_appended (UI.weapon_overlay _ _ _ _) s
             [DrawRect (UI_BACKGROUND_COLOR cfg) (box cfg 10 630) 0;
              DrawRect (border_color cfg (negb (able_to_switch_weapon p)))
                       (box cfg 10 630) 3;
              Blit weapon_img
                   (get_rect weapon_img center
                             (get_anchor center (box cfg 10 630)))])
    by (rewrite weapon_overlay_run; unfold overlay_run; by rewrite Hw).
  rewrite (draws_of_appended (UI.magic_overlay _ _ _ _) s
             [DrawRect (UI_BACKGROUND_COLOR cfg) (box cfg 80 620) 0;
              DrawRect (border_color cfg (negb (able_to_switch_magic p)))
                       (box cfg 80 620) 3;
              Blit magic_img
                   (get_rect magic_img center
                             (get_anchor center (box cfg 80 620)))])
    by (rewrite magic_overlay_run; unfold overlay_run; by rewrite Hm).
  unfold UI.display, bind, lift, py_getitem.
  rewrite Hh. rewrite show_bar_run, Hh0. simpl.
  rewrite He. rewrite show_bar_run, He0. simpl.
  rewrite weapon_overlay_run. unfold overlay_run. rewrite Hw. simpl.
  rewrite magic_overlay_run. unfold overlay_run. rewrite Hm. simpl.
  rewrite show_exp_run. simpl.
  rewrite (draws_of_appended (UI.show_exp cfg ui (exp p)) s _
             ltac:(by rewrite show_exp_run)).
  f_equal. f_equal. by rewrite <- !app_assoc.
Qed.

(** A frame that returns went through every step. *)
Lemma display_returns_inv (host : Host) (cfg : Settings) (ui : UI.t)
    (p : Player) (s : Screen) :
  fst (UI.display host cfg ui p s) = Ok tt ->
  exists (max_health max_energy : Q) (weapon_img magic_img : Surface),
    stats p !! "health"%string = Some max_health /\
    ~ (max_health == 0)%Q /\
    stats p !! "energy"%string = Some max_energy /\
    ~ (max_energy == 0)%Q /\
    py_index (UI.weapon_graphics ui) (weapon_index p) = Ok weapon_img /\
    py_index (UI.magic_graphics ui) (magic_index p) = Ok magic_img.
Proof.
  unfold UI.display, bind, lift, py_getitem.
  destruct (stats p !! "health"%string) as [mh |]; simpl; [| done].
  rewrite show_bar_run.
  destruct (Qeq_bool mh 0) eqn:Eh; simpl; [done |].
  destruct (stats p !! "energy"%string) as [me |]; simpl; [| done].
  rewrite show_bar_run.
  destruct (Qeq_bool me 0) eqn:Ee; simpl; [done |].
  rewrite weapon_overlay_run. unfold overlay_run.
  destruct (py_index (UI.weapon_graphics ui) _) as [wimg | ew]; simpl;
    [| done].
  rewrite magic_overlay_run. unfold overlay_run.
  destruct (py_index (UI.magic_graphics ui) _) as [mimg | em];
    cbv beta iota; [| done].
  intros _. apply Qeq_bool_neq in Eh, Ee. by exists mh, me, wimg, mimg.
Qed.

(** A frame stopped by a health maximum of zero. *)
Lemma display_zero_health (host : Host) (cfg : Settings) (ui : UI.t)
    (p : Player) (s : Screen) (max_health : Q) :
  stats p !! "health"%string = Some max_health -> (max_health == 0)%Q ->
  UI.display host cfg ui p s =
  (Raise ZeroDivisionError,
   mkScreen (get_size s)
     (drawn s ++
      [DrawRect (UI_BACKGROUND_COLOR cfg) (UI.health_bar_rect ui) 0])).
Proof.
  intros Hh Hh0. unfold UI.display, bind, lift, py_getitem.
  by rewrite Hh, show_bar_run, (Qeq_eq_bool _ _ Hh0).
Qed.

(** C5, as stated, fails, and on every host: for the sample player with a
    health maximum of zero, [display] draws the background of the health
    bar and raises; the energy bar, the overlays and the experience text of
    the frame are never drawn. *)
Lemma display_not_for_every_player :
  ~ (exists host : Host,
       display_performs_frame host Sample.cfg Sample.ui
         (mkPlayer 50 48 (<["health" := 0%Q]> (<["energy" := 60%Q]> ∅))
                   2 0 true false 0 "down" "sword" (mkRect 100 100 64 64))
         Sample.screen).
Proof.
  intros (host & mh & me & Hh & He & Hd).
  vm_compute in Hh, He. injection Hh as <-. injection He as <-.
  unfold draws_of at 1 in Hd.
  rewrite (display_zero_health host _ _ _ _ 0) in Hd by done.
  unfold hud_draws in Hd. rewrite !show_bar_draws in Hd.
  apply (f_equal length) in Hd. simpl in Hd. lia.
Qed.

(** C5, amended: for every player state on which [display] returns, that
    is, raises nothing, it has performed exactly these draws in this order:
    the health bar from [player.health] and [player.stats['health']], the
    energy bar from [player.energy] and [player.stats['energy']], the
    weapon overlay with the flag [not player.able_to_switch_weapon], the
    magic overlay with the flag [not player.able_to_switch_magic], and the
    experience text. *)
Theorem display_draw_order (host : Host) (cfg : Settings) (ui : UI.t)
    (p : Player) (s : Screen) :
  fst (UI.display host cfg ui p s) = Ok tt ->
  display_performs_frame host cfg ui p s.
Proof.
  intros Hret.
  destruct (display_returns_inv host cfg ui p s Hret)
    as (mh & me & wimg & mimg & Hh & Hh0 & He & He0 & Hw & Hm).
  exists mh, me. split; [done |]. split; [done |].
  unfold draws_of at 1.
  rewrite (display_run_ok host cfg ui p s mh me wimg mimg) by done.
  simpl. by rewrite drop_app_length.
Qed.

Lemma display_draw_order_witness :
  display_performs_frame rounding_host Sample.cfg Sample.ui
                         (Sample.player "down_idle") Sample.screen.
Proof.
  apply (display_draw_order rounding_host Sample.cfg Sample.ui
           (Sample.player "down_idle") Sample.screen).
  vm_compute. reflexivity.
Defined.

(** The frame of the sample player, draw by draw. *)
Example display_sample_frame :
  UI.display rounding_host Sample.cfg Sample.ui (Sample.player "down_idle")
             Sample.screen =
  (Ok tt,
   mkScreen (1280, 720)
     [DrawRect "#222222" (mkRect 10 10 200 20) 0;
      DrawRect "red" (mkRect 10 10 100 20) 0;
      DrawRect "#111111" (mkRect 10 10 200 20) 3;
      DrawRect "#222222" (mkRect 10 34 140 20) 0;
      DrawRect "blue" (mkRect 10 34 112 20) 0;
      DrawRect "#111111" (mkRect 10 34 140 20) 3;
      DrawRect "#222222" (mkRect 10 630 80 80) 0;
      DrawRect "#111111" (mkRect 10 630 80 80) 3;
      Blit (Sample.icon "axe") (mkRect 18 638 64 64);
      DrawRect "#222222" (mkRect 80 620 80 80) 0;
      DrawRect "gold" (mkRect 80 620 80 80) 3;
      Blit (Sample.icon "flame") (mkRect 88 628 64 64);
      DrawRect "#222222" (mkRect 1207 677 58 28) 0;
      Blit (mkSurface (Rendered "1234" false "#EEEEEE") 48 18)
           (mkRect 1212 682 48 18);
      DrawRect "#222222" (mkRect 1207 677 58 28) 3]).
Proof. vm_compute. reflexivity. Qed.

(** An exception ends the frame where it is raised: with a health maximum of
    zero only the background of the health bar is drawn. *)
Example display_stops_at_zero_maximum (host : Host) :
  UI.display host Sample.cfg Sample.ui
    (mkPlayer 50 48 (<["health" := 0%Q]> (<["energy" := 60%Q]> ∅))
              2 0 true false 0 "down" "sword" (mkRect 100 100 64 64))
    Sample.screen =
  (Raise ZeroDivisionError,
   mkScreen (1280, 720) [DrawRect "#222222" (mkRect 10 10 200 20) 0]).
Proof. by rewrite (display_zero_health host _ _ _ _ 0). Qed.

(** ** The weapon positioner *)

Lemma split_before (sep : ascii) (s : string) :
  exists rest, split sep s = before sep s :: rest.
Proof.
  induction s as [| c s [rest IH]]; simpl; [by eexists |].
  destruct (Ascii.eqb c sep); [by eexists |].
  rewrite IH. by eexists.
Qed.

Lemma py_index_first {A : Type} (h : A) (t : list A) :
  py_index (h :: t) 0 = Ok h.
Proof.
  unfold py_index. simpl length.
  destruct (Z.leb_spec (Z.of_nat (S (length t))) 0); [lia | done].
Qed.

(** [player.status.split('_')[0]] is the part of the status before the first
    underscore, and never fails. *)
Lemma direction_of_status (status : string) :
  py_index (split "_" status) 0 = Ok (status_prefix status).
Proof.
  destruct (split_before "_" status) as [rest ->]. apply py_index_first.
Qed.

(** Adding a vector of whole numbers and reading the sum back as integers is
    integer addition. *)
Lemma vec_radd_whole (p d : Point) :
  vec_to_point (vec_radd p (inject_Z (fst d), inject_Z (snd d))) = offset p d.
Proof.
  unfold vec_to_point, vec_radd, offset. simpl.
  by rewrite <- !inject_Z_plus, !py_int_inject_Z.
Qed.

Lemma direction_table_None (d : string) :
  direction_table d = None <->
  ~ In d ["right"; "left"; "up"; "down"]%string.
Proof.
  unfold direction_table. simpl.
  destruct (String.eqb_spec d "right") as [-> | ?];
    [split; [done | intros H; exfalso; apply H; auto 6] |].
  destruct (String.eqb_spec d "left") as [-> | ?];
    [split; [done | intros H; exfalso; apply H; auto 6] |].
  destruct (String.eqb_spec d "up") as [-> | ?];
    [split; [done | intros H; exfalso; apply H; auto 6] |].
  destruct (String.eqb_spec d "down") as [-> | ?];
    [split; [done | intros H; exfalso; apply H; auto 6] |].
  split; [| done]. intros _ H. intuition congruence.
Qed.

(** The constructor against the anchor rule: it loads the image of the
    weapon for the direction, and either places its rectangle by the row of
    the table, or, for a direction the table does not have, asks for a
    centred rectangle and keeps no rectangle. *)
Lemma weapon_init_run (fs : Assets) (p : Player) (groups : list string)
    (tr : list Weapon.Call) :
  let path := weapon_path p in
  Weapon.init fs p groups tr =
  match image_load fs path with
  | Raise e => (Raise e, tr ++ [Weapon.Load path])
  | Ok img =>
      match direction_table (status_prefix (status p)) with
      | Some (aw, ap, off) =>
          let pt := offset (get_anchor ap (player_rect p)) off in
          (Ok (Weapon.mk "weapon" img (Some (get_rect img aw pt)) groups),
           tr ++ [Weapon.Load path;
                  Weapon.GetRect img aw pt (get_rect img aw pt)])
      | None =>
          let pt := get_anchor center (player_rect p) in
          (Ok (Weapon.mk "weapon" img None groups),
           tr ++ [Weapon.Load path;
                  Weapon.GetRect img center pt (get_rect img center pt)])
      end
  end.
Proof.
  intros path. unfold Weapon.init, bind, lift.
  rewrite direction_of_status. unfold Weapon.load. fold (weapon_path p).
  fold path. destruct (image_load fs path) as [img | e]; [| done].
  unfold direction_table, Weapon.call_get_rect, ret.
  change (0, 16)%Q with (inject_Z (fst (0, 16)), inject_Z (snd (0, 16))).
  change (-10, 0)%Q with (inject_Z (fst (-10, 0)), inject_Z (snd (-10, 0))).
  rewrite !vec_radd_whole.
  repeat (destruct (String.eqb _ _); [simpl; by rewrite <- app_assoc |]).
  simpl. by rewrite <- app_assoc.
Qed.

(** One row of the table: when [(aw, ap, off)] is the row of the status
    prefix, the sprite's rectangle has the size of the image and its point
    [aw] is the point [ap] of the player's rectangle plus [off]. *)
Lemma weapon_anchor_row (fs : Assets) (p : Player) (groups : list string)
    (tr tr' : list Weapon.Call) (w : Weapon.t) (aw ap : Anchor) (off : Point) :
  direction_table (status_prefix (status p)) = Some (aw, ap, off) ->
  Weapon.init fs p groups tr = (Ok w, tr') ->
  exists r : Rect,
    Weapon.rect w = Some r /\
    get_anchor aw r = offset (get_anchor ap (player_rect p)) off /\
    (width r, height r) =
      (surf_w (Weapon.image w), surf_h (Weapon.image w)).
Proof.
  intros Hrow Hinit. rewrite weapon_init_run, Hrow in Hinit.
  destruct (image_load fs (weapon_path p)) as [img | e]; [| done].
  cbv beta iota zeta in Hinit.
  assert (w = Weapon.mk "weapon" img
                (Some (get_rect img aw
                         (offset (get_anchor ap (player_rect p)) off)))
                groups) as -> by congruence.
  eexists. split; [reflexivity |]. split.
  - apply get_set_anchor.
  - unfold get_rect.
    by destruct (set_anchor_size aw
                   (offset (get_anchor ap (player_rect p)) off)
                   (mkRect 0 0 (surf_w img) (surf_h img))) as [-> ->].
Qed.

(** The four rows of the table. *)
Lemma direction_table_rows :
  direction_table "right" = Some (midleft, midright, (0, 16)) /\
  direction_table "left" = Some (midright, midleft, (0, 16)) /\
  direction_table "up" = Some (midbottom, midtop, (-10, 0)) /\
  direction_table "down" = Some (midtop, midbottom, (-10, 0)).
Proof. repeat split. Qed.

(** C2: for a weapon built from a player, the sprite's rectangle is placed
    by the direction, the part of the status before the first underscore:
    right sets its midleft to the player's midright + (0, 16), left its
    midright to the player's midleft + (0, 16), up its midbottom to the
    player's midtop + (-10, 0), down its midtop to the player's
    midbottom + (-10, 0). *)
Theorem weapon_anchor_table (fs : Assets) (p : Player) (groups : list string)
    (tr tr' : list Weapon.Call) (w : Weapon.t) :
  Weapon.init fs p groups tr = (Ok w, tr') ->
  let prect := player_rect p in
  (status_prefix (status p) = "right"%string ->
   exists r, Weapon.rect w = Some r /\
             get_anchor midleft r = offset (get_anchor midright prect) (0, 16)) /\
  (status_prefix (status p) = "left"%string ->
   exists r, Weapon.rect w = Some r /\
             get_anchor midright r = offset (get_anchor midleft prect) (0, 16)) /\
  (status_prefix (status p) = "up"%string ->
   exists r, Weapon.rect w = Some r /\
             get_anchor midbottom r = offset (get_anchor midtop prect) (-10, 0)) /\
  (status_prefix (status p) = "down"%string ->
   exists r, Weapon.rect w = Some r /\
             get_anchor midtop r = offset (get_anchor midbottom prect) (-10, 0)).
Proof.
  intros Hinit prect.
  repeat split; intros Hd;
    (edestruct (weapon_anchor_row fs p groups tr tr' w) as [r [Hr [Ha _]]];
     [by rewrite Hd | exact Hinit | by exists r]).
Qed.

Lemma weapon_anchor_table_witness :
  exists r : Rect,
    Some (mkRect 164 138 40 20) = Some r /\
    get_anchor midleft r = (164, 148).
Proof.
  refine (proj1 (weapon_anchor_table Sample.files (Sample.player "right_idle")
                   ["visible"%string] [] _
                   (Weapon.mk "weapon"
                      (mkSurface
                         (FromFile "./graphics/weapons/sword/right.png") 40 20)
                      (Some (mkRect 164 138 40 20)) ["visible"%string])
                   _) _);
    vm_compute; reflexivity.
Defined.

(** C4: for a weapon built from a player whose status prefix is none of
    right, left, up and down, the constructor asks pygame for the rectangle
    of the image centred on the player's centre, and that is its last call;
    the rectangle is not kept: the sprite's [rect] is left unassigned. *)
Theorem weapon_unrecognized_direction (fs : Assets) (p : Player)
    (groups : list string) (tr tr' : list Weapon.Call) (w : Weapon.t) :
  ~ In (status_prefix (status p)) ["right"; "left"; "up"; "down"]%string ->
  Weapon.init fs p groups tr = (Ok w, tr') ->
  Weapon.rect w = None /\
  exists r : Rect,
    tr' = tr ++ [Weapon.Load (weapon_path p);
                 Weapon.GetRect (Weapon.image w) center
                                (get_anchor center (player_rect p)) r] /\
    get_anchor center r = get_anchor center (player_rect p) /\
    (width r, height r) =
      (surf_w (Weapon.image w), surf_h (Weapon.image w)).
Proof.
  intros Hdir Hinit. apply direction_table_None in Hdir.
  rewrite weapon_init_run, Hdir in Hinit.
  destruct (image_load fs (weapon_path p)) as [img | e]; [| done].
  cbv beta iota zeta in Hinit.
  assert (w = Weapon.mk "weapon" img None groups) as -> by congruence.
  assert (tr' = tr ++ [Weapon.Load (weapon_path p);
                       Weapon.GetRect img center
                         (get_anchor center (player_rect p))
                         (get_rect img center
                                   (get_anchor center (player_rect p)))])
    as -> by congruence.
  split; [done |]. eexists. split; [reflexivity |]. split.
  - apply get_set_anchor.
  - done.
Qed.

Lemma weapon_unrecognized_direction_witness :
  Weapon.rect
    (Weapon.mk "weapon"
       (mkSurface (FromFile "./graphics/weapons/sword/dead.png") 40 20)
       None ["visible"%string]) = None /\
  exists r : Rect,
    [Weapon.Load "./graphics/weapons/sword/dead.png";
     Weapon.GetRect
       (mkSurface (FromFile "./graphics/weapons/sword/dead.png") 40 20)
       center (132, 132) (mkRect 112 122 40 20)] =
    [] ++ [Weapon.Load (weapon_path (Sample.player "dead"));
           Weapon.GetRect
             (mkSurface (FromFile "./graphics/weapons/sword/dead.png") 40 20)
             center (132, 132) r] /\
    get_anchor center r = (132, 132) /\
    (width r, height r) = (40, 20).
Proof.
  refine (weapon_unrecognized_direction Sample.files (Sample.player "dead")
            ["visible"%string] [] _ _ _ _).
  - vm_compute. intros H. repeat (destruct H as [H | H]; [discriminate |]).
    exact H.
  - vm_compute. reflexivity.
Defined.

(** When the image file is missing the constructor raises and no sprite is
    built, whatever the direction. *)
Lemma weapon_init_missing_file (fs : Assets) (p : Player)
    (groups : list string) (tr : list Weapon.Call) :
  images fs !! weapon_path p = None ->
  Weapon.init fs p groups tr =
  (Raise (FileNotFoundError (weapon_path p)),
   tr ++ [Weapon.Load (weapon_path p)]).
Proof.
  intros H. rewrite weapon_init_run. unfold image_load. by rewrite H.
Qed.

(** When it is there, the constructor returns a sprite. *)
Lemma weapon_init_returns (fs : Assets) (p : Player) (groups : list string)
    (tr : list Weapon.Call) (size : Z * Z) :
  images fs !! weapon_path p = Some size ->
  exists w tr', Weapon.init fs p groups tr = (Ok w, tr').
Proof.
  intros H. rewrite weapon_init_run. unfold image_load. rewrite H.
  destruct size as [iw ih].
  destruct (direction_table _) as [[[aw ap] off] |]; simpl; eauto.
Qed.

(** The sample player facing up: the sword's midbottom sits 10 pixels left
    of the middle of the player's top edge. *)
Example weapon_init_up :
  Weapon.init Sample.files (Sample.player "up_attack") ["visible"%string] [] =
  (Ok (Weapon.mk "weapon"
         (mkSurface (FromFile "./graphics/weapons/sword/up.png") 20 40)
         (Some (mkRect 112 60 20 40)) ["visible"%string]),
   [Weapon.Load "./graphics/weapons/sword/up.png";
    Weapon.GetRect (mkSurface (FromFile "./graphics/weapons/sword/up.png") 20 40)
                   midbottom (122, 100) (mkRect 112 60 20 40)]).
Proof. vm_compute. reflexivity. Qed.

(** ** The constructor of the HUD *)

Lemma load_graphics_length (fs : Assets)
    (rows : list (string * gmap string string)) (imgs : list Surface) :
  UI.load_graphics fs rows = Ok imgs -> length imgs = length rows.
Proof.
  revert imgs. induction rows as [| [name row] rows IH]; intros imgs; simpl.
  - by intros [= <-].
  - destruct (py_getitem row "graphic") as [path |]; [| done].
    destruct (image_load fs path) as [img |]; [| done].
    destruct (UI.load_graphics fs rows) as [rest |]; [| done].
    intros [= <-]. simpl. f_equal. by apply IH.
Qed.

(** A HUD that was built has one icon for each entry of [weapon_data] and of
    [magic_data], in their order, and the two bars at their fixed places. *)
Lemma init_icons (cfg : Settings) (fs : Assets) (s s' : Screen) (ui : UI.t) :
  UI.init cfg fs s = (Ok ui, s') ->
  s' = s /\
  length (UI.weapon_graphics ui) = length (weapon_data cfg) /\
  length (UI.magic_graphics ui) = length (magic_data cfg) /\
  UI.health_bar_rect ui = mkRect 10 10 (HEALTH_BAR_WIDTH cfg) (BAR_HEIGHT cfg) /\
  UI.enery_bar_rect ui = mkRect 10 34 (ENERGY_BAR_WIDTH cfg) (BAR_HEIGHT cfg).
Proof.
  unfold UI.init, bind, lift, ret.
  destruct (font_load fs _ _) as [f |]; [| done].
  destruct (UI.load_graphics fs (weapon_data cfg)) as [ws |] eqn:Hw; [| done].
  destruct (UI.load_graphics fs (magic_data cfg)) as [ms |] eqn:Hm; [| done].
  intros [= <- <-]. simpl.
  apply load_graphics_length in Hw, Hm. by rewrite Hw, Hm.
Qed.

(** * Further properties *)

(** ** display, when a frame fails *)

(** The three draws of a bar whose maximum is not zero. *)
Lemma show_bar_ok (host : Host) (cfg : Settings) (ui : UI.t) (c m : Q) (bg : Rect)
    (color : string) (s : Screen) :
  ~ (m == 0)%Q ->
  UI.show_bar host cfg ui c m bg color s =
  (Ok tt,
   mkScreen (get_size s)
            (drawn s ++ draws_of (UI.show_bar host cfg ui c m bg color) s)).
Proof.
  intros Hm. rewrite show_bar_draws, show_bar_run.
  by rewrite (Qeq_bool_nonzero m Hm).
Qed.

Lemma show_bar_zero (host : Host) (cfg : Settings) (ui : UI.t) (c m : Q) (bg : Rect)
    (color : string) (s : Screen) :
  (m == 0)%Q ->
  UI.show_bar host cfg ui c m bg color s =
  (Raise ZeroDivisionError,
   mkScreen (get_size s)
            (drawn s ++ [DrawRect (UI_BACKGROUND_COLOR cfg) bg 0])).
Proof. intros Hm. rewrite show_bar_run. by rewrite (Qeq_eq_bool _ _ Hm). Qed.

(** X5: a player whose [stats] has no ['health'] entry makes [display] raise
    [KeyError] before anything is drawn; with ['health'] present and not
    zero but no ['energy'] entry, [display] raises [KeyError] when the
    health bar, and nothing else, has been drawn. *)
Theorem display_missing_stat (host : Host) (cfg : Settings) (ui : UI.t) (p : Player)
    (s : Screen) :
  (stats p !! "health"%string = None ->
   UI.display host cfg ui p s = (Raise (KeyError "health"), s)) /\
  (forall max_health : Q,
     stats p !! "health"%string = Some max_health ->
     ~ (max_health == 0)%Q ->
     stats p !! "energy"%string = None ->
     UI.display host cfg ui p s =
     (Raise (KeyError "energy"),
      mkScreen (get_size s)
        (drawn s ++
         draws_of (UI.show_bar host cfg ui (health p) max_health
                               (UI.health_bar_rect ui) (HEALTH_COLOR cfg)) s))).
Proof.
  split.
  - intros H. unfold UI.display, bind, lift, py_getitem. by rewrite H.
  - intros mh Hh Hh0 He. unfold UI.display, bind, lift, py_getitem.
    rewrite Hh, (show_bar_ok _ _ _ _ _ _ _ _ Hh0). simpl. by rewrite He.
Qed.

(** X6: a maximum of zero stops the frame inside its bar.  With a health
    maximum of zero only the background of the health bar is drawn; with a
    good health maximum and an energy maximum of zero the health bar is
    drawn in full and of the energy bar only the background.  No overlay
    and no experience text follow. *)
Theorem display_zero_maximum (host : Host) (cfg : Settings) (ui : UI.t) (p : Player)
    (s : Screen) :
  (forall max_health : Q,
     stats p !! "health"%string = Some max_health ->
     (max_health == 0)%Q ->
     UI.display host cfg ui p s =
     (Raise ZeroDivisionError,
      mkScreen (get_size s)
        (drawn s ++
         [DrawRect (UI_BACKGROUND_COLOR cfg) (UI.health_bar_rect ui) 0]))) /\
  (forall max_health max_energy : Q,
     stats p !! "health"%string = Some max_health ->
     ~ (max_health == 0)%Q ->
     stats p !! "energy"%string = Some max_energy ->
     (max_energy == 0)%Q ->
     UI.display host cfg ui p s =
     (Raise ZeroDivisionError,
      mkScreen (get_size s)
        (drawn s ++
         draws_of (UI.show_bar host cfg ui (health p) max_health
                               (UI.health_bar_rect ui) (HEALTH_COLOR cfg)) s ++
         [DrawRect (UI_BACKGROUND_COLOR cfg) (UI.enery_bar_rect ui) 0]))).
Proof.
  split.
  - intros mh Hh Hh0. unfold UI.display, bind, lift, py_getitem.
    by rewrite Hh, (show_bar_zero _ _ _ _ _ _ _ _ Hh0).
  - intros mh me Hh Hh0 He He0. unfold UI.display, bind, lift, py_getitem.
    rewrite Hh, (show_bar_ok _ _ _ _ _ _ _ _ Hh0). simpl.
    rewrite He, (show_bar_zero _ _ _ _ _ _ _ _ He0). simpl.
    by rewrite <- app_assoc.
Qed.

Lemma display_missing_stat_witness :
  UI.display rounding_host Sample.cfg Sample.ui
    (mkPlayer 50 48 ∅ 2 0 true false 0 "down" "sword" (mkRect 100 100 64 64))
    Sample.screen =
  (Raise (KeyError "health"), Sample.screen).
Proof.
  apply (proj1 (display_missing_stat rounding_host Sample.cfg Sample.ui
                  (mkPlayer 50 48 ∅ 2 0 true false 0 "down" "sword"
                            (mkRect 100 100 64 64))
                  Sample.screen)).
  vm_compute. reflexivity.
Defined.

Lemma display_zero_maximum_witness :
  UI.display rounding_host Sample.cfg Sample.ui
    (mkPlayer 50 48 (<["health" := 100%Q]> (<["energy" := 0%Q]> ∅))
              2 0 true false 0 "down" "sword" (mkRect 100 100 64 64))
    Sample.screen =
  (Raise ZeroDivisionError,
   mkScreen (1280, 720)
     [DrawRect "#222222" (mkRect 10 10 200 20) 0;
      DrawRect "red" (mkRect 10 10 100 20) 0;
      DrawRect "#111111" (mkRect 10 10 200 20) 3;
      DrawRect "#222222" (mkRect 10 34 140 20) 0]).
Proof.
  refine (proj2 (display_zero_maximum rounding_host Sample.cfg Sample.ui
                   (mkPlayer 50 48
                      (<["health" := 100%Q]> (<["energy" := 0%Q]> ∅))
                      2 0 true false 0 "down" "sword" (mkRect 100 100 64 64))
                   Sample.screen) 100%Q 0%Q _ _ _ _);
    vm_compute; discriminate || reflexivity.
Defined.

(** The box an overlay leaves behind when its index is out of range. *)
Lemma overlay_run_out_of_range (cfg : Settings) (icons : list Surface)
    (x y i : Z) (sw : bool) (s : Screen) :
  i < - Z.of_nat (length icons) \/ Z.of_nat (length icons) <= i ->
  overlay_run cfg icons x y i sw s =
  (Raise IndexError,
   mkScreen (get_size s)
     (drawn s ++ [DrawRect (UI_BACKGROUND_COLOR cfg) (box cfg x y) 0;
                  DrawRect (border_color cfg sw) (box cfg x y) 3])).
Proof.
  intros Hi. unfold overlay_run.
  destruct (py_index_spec icons i) as [_ Hout]. by rewrite (Hout Hi).
Qed.

(** X7: with both bars drawn, a weapon index outside
    [[-n, n - 1]] ([n] weapon icons) makes [display] raise [IndexError]
    when the two bars and the empty weapon box are on the screen: no
    weapon icon, no magic overlay and no experience text are drawn. *)
Theorem display_bad_weapon_index (host : Host) (cfg : Settings) (ui : UI.t) (p : Player)
    (s : Screen) (max_health max_energy : Q) :
  stats p !! "health"%string = Some max_health -> ~ (max_health == 0)%Q ->
  stats p !! "energy"%string = Some max_energy -> ~ (max_energy == 0)%Q ->
  weapon_index p < - Z.of_nat (length (UI.weapon_graphics ui)) \/
  Z.of_nat (length (UI.weapon_graphics ui)) <= weapon_index p ->
  UI.display host cfg ui p s =
  (Raise IndexError,
   mkScreen (get_size s)
     (drawn s ++
      draws_of (UI.show_bar host cfg ui (health p) max_health
                            (UI.health_bar_rect ui) (HEALTH_COLOR cfg)) s ++
      draws_of (UI.show_bar host cfg ui (energy p) max_energy
                            (UI.enery_bar_rect ui) (ENERGY_COLOR cfg)) s ++
      [DrawRect (UI_BACKGROUND_COLOR cfg) (box cfg 10 630) 0;
       DrawRect (border_color cfg (negb (able_to_switch_weapon p)))
                (box cfg 10 630) 3])).
Proof.
  intros Hh Hh0 He He0 Hi. unfold UI.display, bind, lift, py_getitem.
  rewrite Hh, (show_bar_ok _ _ _ _ _ _ _ _ Hh0). cbv beta iota.
  rewrite He, (show_bar_ok _ _ _ _ _ _ _ _ He0). cbv beta iota.
  rewrite weapon_overlay_run, overlay_run_out_of_range by done.
  cbv beta iota. simpl get_size. simpl drawn.
  rewrite !show_bar_draws_any with (s' := mkScreen _ _) (s := s).
  by rewrite <- !app_assoc.
Qed.

Lemma display_bad_weapon_index_witness :
  UI.display rounding_host Sample.cfg Sample.ui
    (mkPlayer 50 48 (<["health" := 100%Q]> (<["energy" := 60%Q]> ∅))
              4 0 true false 0 "down" "sword" (mkRect 100 100 64 64))
    Sample.screen =
  (Raise IndexError,
   mkScreen (1280, 720)
     [DrawRect "#222222" (mkRect 10 10 200 20) 0;
      DrawRect "red" (mkRect 10 10 100 20) 0;
      DrawRect "#111111" (mkRect 10 10 200 20) 3;
      DrawRect "#222222" (mkRect 10 34 140 20) 0;
      DrawRect "blue" (mkRect 10 34 112 20) 0;
      DrawRect "#111111" (mkRect 10 34 140 20) 3;
      DrawRect "#222222" (mkRect 10 630 80 80) 0;
      DrawRect "#111111" (mkRect 10 630 80 80) 3]).
Proof.
  refine (display_bad_weapon_index rounding_host Sample.cfg Sample.ui
            (mkPlayer 50 48 (<["health" := 100%Q]> (<["energy" := 60%Q]> ∅))
                      4 0 true false 0 "down" "sword" (mkRect 100 100 64 64))
            Sample.screen 100%Q 60%Q _ _ _ _ _);
    try (vm_compute; discriminate || reflexivity).
  right. vm_compute. discriminate.
Defined.

(** ** show_bar, at and beyond the ends of the bar *)

(** X8: a bar whose current amount equals its maximum (not zero) is filled
    with exactly the background rectangle, and a bar whose current amount
    is zero gets a fill of width zero. *)
Theorem show_bar_ends (host : Host) (cfg : Settings) (ui : UI.t) (m : Q)
    (bg : Rect) (color : string) (s : Screen) :
  ~ (m == 0)%Q ->
  fill_rect host cfg ui m m bg color s = Some bg /\
  fill_width host cfg ui 0 m bg color s = Some 0.
Proof.
  intros Hm. rewrite fill_rect_run, fill_width_run, (Qeq_bool_nonzero m Hm).
  split; f_equal.
  - unfold fill_of.
    rewrite (stored_width_multiple host 1 m m bg Hm)
      by (change (inject_Z 1) with 1%Q; ring).
    rewrite Z.mul_1_r. by destruct bg.
  - rewrite (stored_width_multiple host 0 0 m bg Hm)
      by (change (inject_Z 0) with 0%Q; ring).
    apply Z.mul_0_r.
Qed.

Lemma show_bar_ends_witness :
  fill_rect rounding_host Sample.cfg Sample.ui 100 100 (mkRect 10 10 200 20)
            "red" Sample.screen = Some (mkRect 10 10 200 20) /\
  fill_width rounding_host Sample.cfg Sample.ui 0 100 (mkRect 10 10 200 20)
             "red" Sample.screen = Some 0.
Proof.
  apply (show_bar_ends rounding_host Sample.cfg Sample.ui 100
           (mkRect 10 10 200 20) "red" Sample.screen).
  vm_compute. discriminate.
Defined.

(** X9: within the contract the fill stays inside the bar: for
    [0 <= current <= max], [max > 0] and a background of non-negative
    width, the fill width is between 0 and the width of the background. *)
Theorem show_bar_fill_within_bar (host : Host) (cfg : Settings) (ui : UI.t)
    (c m : Q) (bg : Rect) (color : string) (s : Screen) :
  (0 <= c)%Q -> (c <= m)%Q -> (0 < m)%Q -> 0 <= width bg ->
  exists w : Z,
    fill_width host cfg ui c m bg color s = Some w /\ 0 <= w <= width bg.
Proof.
  intros Hc0 Hcm Hm Hw. rewrite fill_width_run, (Qeq_bool_pos m Hm).
  pose proof (Qpos_nonzero m Hm) as Hm0.
  eexists. split; [reflexivity |]. split.
  - assert (stored_width host 0 m bg = 0) as <-.
    { rewrite (stored_width_multiple host 0 0 m bg Hm0)
        by (change (inject_Z 0) with 0%Q; ring).
      apply Z.mul_0_r. }
    by apply stored_width_mono.
  - assert (stored_width host m m bg = width bg) as Hfull.
    { rewrite (stored_width_multiple host 1 m m bg Hm0)
        by (change (inject_Z 1) with 1%Q; ring).
      apply Z.mul_1_r. }
    rewrite <- Hfull. by apply stored_width_mono.
Qed.

Lemma show_bar_fill_within_bar_witness :
  exists w : Z,
    fill_width rounding_host Sample.cfg Sample.ui 1 3 (mkRect 10 10 200 20)
               "red" Sample.screen = Some w /\ 0 <= w <= 200.
Proof.
  apply (show_bar_fill_within_bar rounding_host Sample.cfg Sample.ui 1 3
           (mkRect 10 10 200 20) "red" Sample.screen);
    vm_compute; discriminate || reflexivity.
Defined.

(** X10: nothing clamps the fill.  For [max > 0], a background of
    non-negative width and every whole number [k >= 0], whenever the fill
    is drawn: a current amount of at least [k] times the maximum gives a
    fill at least [k] times as wide as the background, and a current amount
    of at most [-k] times the maximum gives a fill of width at most [-k]
    times that of the background.  So twice the maximum fills at least two
    bars, where a clamped fill would stop at one. *)
Theorem show_bar_fill_leaves_bar (host : Host) (cfg : Settings) (ui : UI.t)
    (c m : Q) (bg : Rect) (color : string) (s : Screen) (k w : Z) :
  (0 < m)%Q -> 0 <= width bg -> 0 <= k ->
  fill_width host cfg ui c m bg color s = Some w ->
  ((inject_Z k * m <= c)%Q -> k * width bg <= w) /\
  ((c <= - (inject_Z k * m))%Q -> w <= - (k * width bg)).
Proof.
  intros Hm Hw Hk. rewrite fill_width_run, (Qeq_bool_pos m Hm).
  pose proof (Qpos_nonzero m Hm) as Hm0.
  intros [= <-]. split; intros Hc.
  - rewrite (Z.mul_comm k).
    rewrite <- (stored_width_multiple host k (inject_Z k * m) m bg Hm0)
      by reflexivity.
    by apply stored_width_mono.
  - rewrite (Z.mul_comm k), <- Z.mul_opp_r.
    rewrite <- (stored_width_multiple host (- k) (- (inject_Z k * m)) m bg Hm0)
      by (rewrite inject_Z_opp; ring).
    by apply stored_width_mono.
Qed.

Lemma show_bar_fill_leaves_bar_witness :
  ((inject_Z 2 * 100 <= 250)%Q -> 2 * 200 <= 500) /\
  ((250 <= - (inject_Z 2 * 100))%Q -> 500 <= - (2 * 200)).
Proof.
  apply (show_bar_fill_leaves_bar rounding_host Sample.cfg Sample.ui 250 100
           (mkRect 10 10 200 20) "red" Sample.screen 2 500);
    vm_compute; discriminate || reflexivity.
Defined.

(** Twice the maximum on the sample bar: the fill is 400 pixels wide on a
    bar of 200. *)
Example show_bar_twice_the_maximum (host : Host) :
  fill_rect host Sample.cfg Sample.ui 200 100 (mkRect 10 10 200 20) "red"
            Sample.screen = Some (mkRect 10 10 400 20).
Proof.
  rewrite fill_rect_run. change (Qeq_bool 100 0) with false. unfold fill_of.
  by rewrite (stored_width_multiple host 2 200 100 (mkRect 10 10 200 20)).
Qed.

(** X11: when the maximum is zero the background of the bar is already on
    the screen when [ZeroDivisionError] is raised; the fill and the border
    are not drawn. *)
Theorem show_bar_zero_maximum_background_only (host : Host) (cfg : Settings)
    (ui : UI.t) (c m : Q) (bg : Rect) (color : string) (s : Screen) :
  (m == 0)%Q ->
  fst (UI.show_bar host cfg ui c m bg color s) = Raise ZeroDivisionError /\
  draws_of (UI.show_bar host cfg ui c m bg color) s =
    [DrawRect (UI_BACKGROUND_COLOR cfg) bg 0].
Proof.
  intros Hm. rewrite show_bar_draws, show_bar_run.
  by rewrite (Qeq_eq_bool _ _ Hm).
Qed.

Lemma show_bar_zero_maximum_background_only_witness :
  fst (UI.show_bar rounding_host Sample.cfg Sample.ui 50 0
                   (mkRect 10 10 200 20) "red" Sample.screen) =
    Raise ZeroDivisionError /\
  draws_of (UI.show_bar rounding_host Sample.cfg Sample.ui 50 0
                        (mkRect 10 10 200 20) "red")
           Sample.screen = [DrawRect "#222222" (mkRect 10 10 200 20) 0].
Proof.
  apply (show_bar_zero_maximum_background_only rounding_host Sample.cfg
           Sample.ui 50 0 (mkRect 10 10 200 20) "red" Sample.screen).
  vm_compute. reflexivity.
Defined.

(** ** show_exp: layout and text *)

Lemma py_int_between (n : Z) (e : Q) :
  0 <= n -> (inject_Z n <= e)%Q -> (e < inject_Z (n + 1))%Q -> py_int e = n.
Proof.
  intros Hn Hlo Hhi. rewrite py_int_floor_ceiling.
  assert (0 <= e)%Q as He.
  { eapply Qle_trans; [| exact Hlo].
    change 0%Q with (inject_Z 0). by rewrite <- Zle_Qle. }
  apply Qnum_nonneg in He.
  destruct (Z.leb_spec 0 (Qnum e)); [| lia].
  apply Z.le_antisymm.
  - assert (Qfloor e < n + 1); [| lia].
    rewrite Zlt_Qlt. eapply Qle_lt_trans; [apply Qfloor_le | exact Hhi].
  - rewrite <- (Qfloor_Z n). by apply Qfloor_resp_le.
Qed.

(** X12: the experience counter is right-aligned with a 5-pixel frame.  For
    a text of [tw] by [th] pixels on a surface of [W] by [H], the text is
    blitted at [(W - 20 - tw, H - 20 - th)], and the rectangle filled before
    it and outlined after it starts at [(W - 25 - tw, H - 25 - th)], is
    [tw + 10] by [th + 10], and ends 15 pixels from the corner of the
    surface. *)
Theorem show_exp_layout (cfg : Settings) (ui : UI.t) (e : Q) (s : Screen) :
  let tw := fst (text_size (UI.font ui) (py_str (py_int e))) in
  let th := snd (text_size (UI.font ui) (py_str (py_int e))) in
  let W := fst (get_size s) in
  let H := snd (get_size s) in
  let frame := mkRect (W - 25 - tw) (H - 25 - th) (tw + 10) (th + 10) in
  draws_of (UI.show_exp cfg ui e) s =
    [DrawRect (UI_BACKGROUND_COLOR cfg) frame 0;
     Blit (mkSurface (Rendered (py_str (py_int e)) false (TEXT_COLOR cfg)) tw th)
          (mkRect (W - 20 - tw) (H - 20 - th) tw th);
     DrawRect (UI_BACKGROUND_COLOR cfg) frame 3] /\
  get_anchor bottomright frame = (W - 15, H - 15).
Proof.
  intros tw th W H frame. split.
  - apply draws_of_appended. rewrite show_exp_run.
    unfold get_rect, render, inflate. simpl. fold tw th W H.
    change (10 `quot` 2) with 5.
    replace (W - 20 - tw - 5) with (W - 25 - tw) by lia.
    by replace (H - 20 - th - 5) with (H - 25 - th) by lia.
  - simpl. f_equal; lia.
Qed.

(** X13: the counter shows whole points and never rounds up: for a whole
    number [n >= 0] and [n <= exp < n + 1], the text rendered is [str(n)],
    in the text colour and without antialiasing. *)
Theorem show_exp_drops_fraction (cfg : Settings) (ui : UI.t) (e : Q) (n : Z)
    (s : Screen) :
  0 <= n -> (inject_Z n <= e)%Q -> (e < inject_Z (n + 1))%Q ->
  exists (before_text after_text : DrawOp) (text_surf : Surface)
         (text_rect : Rect),
    draws_of (UI.show_exp cfg ui e) s =
      [before_text; Blit text_surf text_rect; after_text] /\
    pixels text_surf = Rendered (py_str n) false (TEXT_COLOR cfg).
Proof.
  intros Hn Hlo Hhi. do 4 eexists. split.
  - apply draws_of_appended. by rewrite show_exp_run.
  - simpl. by rewrite (py_int_between n e Hn Hlo Hhi).
Qed.

Lemma show_exp_drops_fraction_witness :
  exists (before_text after_text : DrawOp) (text_surf : Surface)
         (text_rect : Rect),
    draws_of (UI.show_exp Sample.cfg Sample.ui (12349 # 10)) Sample.screen =
      [before_text; Blit text_surf text_rect; after_text] /\
    pixels text_surf = Rendered (py_str 1234) false "#EEEEEE".
Proof.
  apply (show_exp_drops_fraction Sample.cfg Sample.ui (12349 # 10) 1234
           Sample.screen);
    vm_compute; discriminate || reflexivity.
Defined.

(** ** The overlays: which icon, where, and what an error leaves *)

Lemma overlay_run_in_range (cfg : Settings) (icons : list Surface)
    (x y i : Z) (sw : bool) (s : Screen) :
  0 <= i < Z.of_nat (length icons) ->
  exists (img : Surface) (r : Rect),
    icons !! Z.to_nat i = Some img /\
    overlay_run cfg icons x y i sw s =
    (Ok tt,
     mkScreen (get_size s)
       (drawn s ++ [DrawRect (UI_BACKGROUND_COLOR cfg) (box cfg x y) 0;
                    DrawRect (border_color cfg sw) (box cfg x y) 3;
                    Blit img r])) /\
    get_anchor center r =
      (x + ITEM_BOX_SIZE cfg `quot` 2, y + ITEM_BOX_SIZE cfg `quot` 2) /\
    (width r, height r) = (surf_w img, surf_h img).
Proof.
  intros Hi. destruct (py_index_spec icons i) as [Hin _].
  destruct Hin as [img [Himg Hl]]; [lia |].
  destruct (Z.ltb_spec i 0); [lia |].
  exists img, (get_rect img center (get_anchor center (box cfg x y))).
  split; [done |]. split; [unfold overlay_run; by rewrite Himg |].
  split; [apply get_set_anchor | done].
Qed.

(** X14: for an index [i] with [0 <= i < n] ([n] icons loaded), each overlay
    returns after three draws: its box, the outline of the box, and the
    [i]-th icon, at its own size, with its centre on the centre of the box:
    [(10 + B/2, 630 + B/2)] for the weapon and [(80 + B/2, 620 + B/2)] for
    the magic, [B] being [ITEM_BOX_SIZE] and the halves integer halves. *)
Theorem overlay_draws_icon_centred (cfg : Settings) (ui : UI.t) (i : Z)
    (sw : bool) (s : Screen) :
  (0 <= i < Z.of_nat (length (UI.weapon_graphics ui)) ->
   exists (img : Surface) (r : Rect),
     UI.weapon_graphics ui !! Z.to_nat i = Some img /\
     UI.weapon_overlay cfg ui i sw s =
     (Ok tt,
      mkScreen (get_size s)
        (drawn s ++ [DrawRect (UI_BACKGROUND_COLOR cfg) (box cfg 10 630) 0;
                     DrawRect (border_color cfg sw) (box cfg 10 630) 3;
                     Blit img r])) /\
     get_anchor center r =
       (10 + ITEM_BOX_SIZE cfg `quot` 2, 630 + ITEM_BOX_SIZE cfg `quot` 2) /\
     (width r, height r) = (surf_w img, surf_h img)) /\
  (0 <= i < Z.of_nat (length (UI.magic_graphics ui)) ->
   exists (img : Surface) (r : Rect),
     UI.magic_graphics ui !! Z.to_nat i = Some img /\
     UI.magic_overlay cfg ui i sw s =
     (Ok tt,
      mkScreen (get_size s)
        (drawn s ++ [DrawRect (UI_BACKGROUND_COLOR cfg) (box cfg 80 620) 0;
                     DrawRect (border_color cfg sw) (box cfg 80 620) 3;
                     Blit img r])) /\
     get_anchor center r =
       (80 + ITEM_BOX_SIZE cfg `quot` 2, 620 + ITEM_BOX_SIZE cfg `quot` 2) /\
     (width r, height r) = (surf_w img, surf_h img)).
Proof.
  split; intros Hi.
  - rewrite weapon_overlay_run. by apply overlay_run_in_range.
  - rewrite magic_overlay_run. by apply overlay_run_in_range.
Qed.

Lemma overlay_draws_icon_centred_witness :
  exists (img : Surface) (r : Rect),
    UI.weapon_graphics Sample.ui !! Z.to_nat 2 = Some img /\
    UI.weapon_overlay Sample.cfg Sample.ui 2 false Sample.screen =
    (Ok tt,
     mkScreen (1280, 720)
       ([] ++ [DrawRect "#222222" (mkRect 10 630 80 80) 0;
               DrawRect "#111111" (mkRect 10 630 80 80) 3;
               Blit img r])) /\
    get_anchor center r = (50, 670) /\
    (width r, height r) = (surf_w img, surf_h img).
Proof.
  apply (proj1 (overlay_draws_icon_centred Sample.cfg Sample.ui 2 false
                  Sample.screen)).
  vm_compute. split; discriminate || reflexivity.
Defined.

(** X15: for an index outside [[-n, n - 1]] each overlay raises
    [IndexError] after it has drawn its box and the outline of the box: the
    frame is left with an empty selection box. *)
Theorem overlay_out_of_range_leaves_box (cfg : Settings) (ui : UI.t) (i : Z)
    (sw : bool) (s : Screen) :
  (i < - Z.of_nat (length (UI.weapon_graphics ui)) \/
   Z.of_nat (length (UI.weapon_graphics ui)) <= i ->
   UI.weapon_overlay cfg ui i sw s =
   (Raise IndexError,
    mkScreen (get_size s)
      (drawn s ++ [DrawRect (UI_BACKGROUND_COLOR cfg) (box cfg 10 630) 0;
                   DrawRect (border_color cfg sw) (box cfg 10 630) 3]))) /\
  (i < - Z.of_nat (length (UI.magic_graphics ui)) \/
   Z.of_nat (length (UI.magic_graphics ui)) <= i ->
   UI.magic_overlay cfg ui i sw s =
   (Raise IndexError,
    mkScreen (get_size s)
      (drawn s ++ [DrawRect (UI_BACKGROUND_COLOR cfg) (box cfg 80 620) 0;
                   DrawRect (border_color cfg sw) (box cfg 80 620) 3]))).
Proof.
  split; intros Hi.
  - rewrite weapon_overlay_run. by apply overlay_run_out_of_range.
  - rewrite magic_overlay_run. by apply overlay_run_out_of_range.
Qed.

Lemma overlay_out_of_range_leaves_box_witness :
  UI.magic_overlay Sample.cfg Sample.ui 2 true Sample.screen =
  (Raise IndexError,
   mkScreen (1280, 720)
     ([] ++ [DrawRect "#222222" (mkRect 80 620 80 80) 0;
             DrawRect "gold" (mkRect 80 620 80 80) 3])).
Proof.
  apply (proj2 (overlay_out_of_range_leaves_box Sample.cfg Sample.ui 2 true
                  Sample.screen)).
  right. vm_compute. discriminate.
Defined.

(** X16: the weapon box at [(10, 630)] and the magic box at [(80, 620)]
    share pixels exactly when [ITEM_BOX_SIZE] is above 70. *)
Theorem overlay_boxes_overlap (cfg : Settings) (ui : UI.t) (sw1 sw2 : bool)
    (s : Screen) :
  exists weapon_box magic_box : Rect,
    fst (UI.selection_box cfg ui 10 630 sw1 s) = Ok weapon_box /\
    fst (UI.selection_box cfg ui 80 620 sw2 s) = Ok magic_box /\
    (overlaps weapon_box magic_box <-> 70 < ITEM_BOX_SIZE cfg).
Proof.
  do 2 eexists. rewrite !selection_box_run. simpl.
  do 2 (split; [reflexivity |]).
  unfold overlaps, box. simpl. lia.
Qed.

(** ** The constructor of the HUD, in full *)

Lemma load_graphics_ok (fs : Assets)
    (rows : list (string * gmap string string)) (imgs : list Surface) :
  UI.load_graphics fs rows = Ok imgs <-> Forall2 (loads_as fs) rows imgs.
Proof.
  revert imgs. induction rows as [| [name row] rows IH]; intros imgs; simpl.
  - split; [intros [= <-]; constructor | by intros ->%Forall2_nil_inv_l].
  - unfold py_getitem, image_load. split.
    + destruct (row !! "graphic"%string) as [path |] eqn:Hp; [| done].
      destruct (images fs !! path) as [[w h] |] eqn:Hf; [| done].
      destruct (UI.load_graphics fs rows) as [rest |]; [| done].
      intros [= <-]. constructor; [| by apply IH].
      by exists path, w, h.
    + intros (img & rest & [path [w [h [Hp [Hf ->]]]]] & Hrest & ->)
             %Forall2_cons_inv_l.
      simpl in Hp. rewrite Hp, Hf. apply IH in Hrest. by rewrite Hrest.
Qed.

(** X17: a HUD that was built holds the font [UI_FONT] at [UI_FONT_SIZE],
    the two bars at [(10, 10)] and [(10, 34)] with the widths and the height
    of the settings, and one icon for each entry of [weapon_data] and of
    [magic_data], in the order of the entries, each the image file that the
    entry's ['graphic'] names; building it draws nothing. *)
Theorem init_builds_hud (cfg : Settings) (fs : Assets) (s s' : Screen)
    (ui : UI.t) :
  UI.init cfg fs s = (Ok ui, s') ->
  s' = s /\
  (font_file (UI.font ui), font_pt (UI.font ui)) =
    (UI_FONT cfg, UI_FONT_SIZE cfg) /\
  UI.health_bar_rect ui = mkRect 10 10 (HEALTH_BAR_WIDTH cfg) (BAR_HEIGHT cfg) /\
  UI.enery_bar_rect ui = mkRect 10 34 (ENERGY_BAR_WIDTH cfg) (BAR_HEIGHT cfg) /\
  Forall2 (loads_as fs) (weapon_data cfg) (UI.weapon_graphics ui) /\
  Forall2 (loads_as fs) (magic_data cfg) (UI.magic_graphics ui).
Proof.
  unfold UI.init, bind, lift, ret, font_load.
  destruct (fonts fs !! UI_FONT cfg) as [metrics |]; [| done].
  destruct (UI.load_graphics fs (weapon_data cfg)) as [ws |] eqn:Hw; [| done].
  destruct (UI.load_graphics fs (magic_data cfg)) as [ms |] eqn:Hm; [| done].
  intros [= <- <-]. simpl.
  apply load_graphics_ok in Hw, Hm. done.
Qed.

Lemma init_builds_hud_witness :
  Sample.screen = Sample.screen /\
  (font_file (UI.font SampleInit.ui), font_pt (UI.font SampleInit.ui)) =
    ("joystix.ttf"%string, 18) /\
  UI.health_bar_rect SampleInit.ui = mkRect 10 10 200 20 /\
  UI.enery_bar_rect SampleInit.ui = mkRect 10 34 140 20 /\
  Forall2 (loads_as SampleInit.files) (weapon_data SampleInit.cfg)
          (UI.weapon_graphics SampleInit.ui) /\
  Forall2 (loads_as SampleInit.files) (magic_data SampleInit.cfg)
          (UI.magic_graphics SampleInit.ui).
Proof.
  apply (init_builds_hud SampleInit.cfg SampleInit.files Sample.screen
           Sample.screen SampleInit.ui).
  vm_compute. reflexivity.
Defined.

(** X18: the font is loaded before the icons: when the font file [UI_FONT]
    is missing the constructor raises [FileNotFoundError] for it, whatever
    the two icon tables hold, and nothing has been drawn on the screen. *)
Theorem init_missing_font (cfg : Settings) (fs : Assets) (s : Screen) :
  fonts fs !! UI_FONT cfg = None ->
  UI.init cfg fs s = (Raise (FileNotFoundError (UI_FONT cfg)), s).
Proof.
  intros Hfont. unfold UI.init, bind, lift, ret, font_load.
  by rewrite Hfont.
Qed.

Lemma init_missing_font_witness :
  UI.init SampleInit.cfg Sample.files Sample.screen =
  (Raise (FileNotFoundError "joystix.ttf"), Sample.screen).
Proof.
  apply (init_missing_font SampleInit.cfg Sample.files Sample.screen).
  vm_compute. reflexivity.
Defined.

Lemma load_graphics_app (fs : Assets)
    (pre rest : list (string * gmap string string)) (imgs : list Surface) :
  Forall2 (loads_as fs) pre imgs ->
  UI.load_graphics fs (pre ++ rest) =
  match UI.load_graphics fs rest with
  | Ok more => Ok (imgs ++ more)
  | Raise e => Raise e
  end.
Proof.
  induction 1 as [| [name row] img pre imgs [path [w [h [Hp [Hf ->]]]]] _ IH];
    simpl.
  - by destruct (UI.load_graphics fs rest).
  - simpl in Hp. unfold py_getitem, image_load. rewrite Hp, Hf, IH.
    by destruct (UI.load_graphics fs rest).
Qed.

(** X19: the icons are loaded in the order of the table and the first bad
    entry decides.  With the font in place, if the entries of [weapon_data]
    before some entry all load, then that entry makes the constructor raise
    [KeyError] when it has no ['graphic'], and [FileNotFoundError] for its
    path when the file is missing, whatever comes after it and whatever
    [magic_data] holds. *)
Theorem init_first_bad_entry (cfg : Settings) (fs : Assets) (s : Screen)
    (pre rest : list (string * gmap string string)) (imgs : list Surface)
    (name : string) (row : gmap string string) :
  is_Some (fonts fs !! UI_FONT cfg) ->
  weapon_data cfg = pre ++ (name, row) :: rest ->
  Forall2 (loads_as fs) pre imgs ->
  (row !! "graphic"%string = None ->
   UI.init cfg fs s = (Raise (KeyError "graphic"), s)) /\
  (forall path : string,
     row !! "graphic"%string = Some path -> images fs !! path = None ->
     UI.init cfg fs s = (Raise (FileNotFoundError path), s)).
Proof.
  intros [metrics Hfont] Hdata Hpre.
  unfold UI.init, bind, lift, font_load. rewrite Hfont, Hdata.
  rewrite (load_graphics_app fs pre _ imgs Hpre). simpl.
  unfold py_getitem, image_load. split.
  - by intros ->.
  - by intros path -> ->.
Qed.

Lemma init_first_bad_entry_witness :
  UI.init
    (mkSettings "joystix.ttf" 18 200 140 20 80
                "#222222" "#111111" "gold" "red" "blue" "#EEEEEE"
                [SampleInit.entry "sword" "sword.png";
                 SampleInit.entry "bow" "bow.png";
                 SampleInit.entry "axe" "axe.png"] [])
    SampleInit.files Sample.screen =
  (Raise (FileNotFoundError "bow.png"), Sample.screen).
Proof.
  refine (proj2 (init_first_bad_entry
                   (mkSettings "joystix.ttf" 18 200 140 20 80
                      "#222222" "#111111" "gold" "red" "blue" "#EEEEEE"
                      [SampleInit.entry "sword" "sword.png";
                       SampleInit.entry "bow" "bow.png";
                       SampleInit.entry "axe" "axe.png"] [])
                   SampleInit.files Sample.screen
                   [SampleInit.entry "sword" "sword.png"]
                   [SampleInit.entry "axe" "axe.png"]
                   [mkSurface (FromFile "sword.png") 64 64]
                   "bow" (<["graphic" := "bow.png"%string]> ∅) _ _ _)
                "bow.png"%string _ _).
  - vm_compute. eauto.
  - reflexivity.
  - constructor; [| constructor].
    exists "sword.png"%string, 64, 64. vm_compute. auto.
  - vm_compute. reflexivity.
  - vm_compute. reflexivity.
Defined.

(** X20: the settings give the overlays their index space.  For a HUD built
    by the constructor, [weapon_overlay] raises [IndexError] exactly for an
    index outside [[-n, n - 1]] with [n] the number of entries of
    [weapon_data], and [magic_overlay] likewise with the number of entries
    of [magic_data]. *)
Theorem init_index_space (cfg : Settings) (fs : Assets) (s0 s0' s : Screen)
    (ui : UI.t) (i : Z) (sw : bool) :
  UI.init cfg fs s0 = (Ok ui, s0') ->
  (fst (UI.weapon_overlay cfg ui i sw s) = Raise IndexError <->
   i < - Z.of_nat (length (weapon_data cfg)) \/
   Z.of_nat (length (weapon_data cfg)) <= i) /\
  (fst (UI.magic_overlay cfg ui i sw s) = Raise IndexError <->
   i < - Z.of_nat (length (magic_data cfg)) \/
   Z.of_nat (length (magic_data cfg)) <= i).
Proof.
  intros Hinit. apply init_icons in Hinit as (_ & Hw & Hm & _).
  rewrite <- Hw, <- Hm, weapon_overlay_run, magic_overlay_run.
  split; apply overlay_run_index.
Qed.

Lemma init_index_space_witness :
  (fst (UI.weapon_overlay SampleInit.cfg SampleInit.ui 3 false Sample.screen)
   = Raise IndexError <->
   3 < - Z.of_nat (length (weapon_data SampleInit.cfg)) \/
   Z.of_nat (length (weapon_data SampleInit.cfg)) <= 3) /\
  (fst (UI.magic_overlay SampleInit.cfg SampleInit.ui 3 false Sample.screen)
   = Raise IndexError <->
   3 < - Z.of_nat (length (magic_data SampleInit.cfg)) \/
   Z.of_nat (length (magic_data SampleInit.cfg)) <= 3).
Proof.
  apply (init_index_space SampleInit.cfg SampleInit.files Sample.screen
           Sample.screen Sample.screen SampleInit.ui 3 false).
  vm_compute. reflexivity.
Defined.

(** X21: the two bars of a HUD that was built share pixels exactly when
    both widths are positive and [BAR_HEIGHT] is above 24, the distance
    between their top edges. *)
Theorem init_bars_overlap (cfg : Settings) (fs : Assets) (s s' : Screen)
    (ui : UI.t) :
  UI.init cfg fs s = (Ok ui, s') ->
  (overlaps (UI.health_bar_rect ui) (UI.enery_bar_rect ui) <->
   0 < HEALTH_BAR_WIDTH cfg /\ 0 < ENERGY_BAR_WIDTH cfg /\ 24 < BAR_HEIGHT cfg).
Proof.
  intros Hinit. apply init_icons in Hinit as (_ & _ & _ & -> & ->).
  unfold overlaps. simpl. lia.
Qed.

Lemma init_bars_overlap_witness :
  overlaps (UI.health_bar_rect SampleInit.ui)
           (UI.enery_bar_rect SampleInit.ui) <->
  0 < HEALTH_BAR_WIDTH SampleInit.cfg /\ 0 < ENERGY_BAR_WIDTH SampleInit.cfg /\
  24 < BAR_HEIGHT SampleInit.cfg.
Proof.
  apply (init_bars_overlap SampleInit.cfg SampleInit.files Sample.screen
           Sample.screen SampleInit.ui).
  vm_compute. reflexivity.
Defined.

(** ** The weapon sprite: when it is built, and where it touches the player *)

Lemma before_rest (sep : ascii) (s : string) :
  exists rest : string,
    s = (before sep s ++ rest)%string /\
    (rest = EmptyString \/ exists r, rest = String sep r).
Proof.
  induction s as [| c s [rest [Hs Hrest]]]; simpl.
  - exists EmptyString. auto.
  - destruct (Ascii.eqb_spec c sep) as [-> | Hc].
    + exists (String sep s). eauto.
    + exists rest. split; [| done].
      change (String c s = String c (before sep s ++ rest)%string).
      congruence.
Qed.

Lemma before_has_no_sep (sep : ascii) (s a b : string) :
  before sep s <> (a ++ String sep b)%string.
Proof.
  revert a. induction s as [| c s IH]; intros a; simpl.
  - by destruct a.
  - destruct (Ascii.eqb_spec c sep) as [-> | Hc]; [by destruct a |].
    destruct a as [| c' a]; unfold String.append; fold String.append;
      [congruence |].
    intros [= -> H]. by apply (IH a).
Qed.

(** X22: the constructor returns a sprite exactly when the image file
    [./graphics/weapons/{weapon}/{direction}.png] exists.  The sprite then
    has [sprite_type] ['weapon'], that image, and the groups given;
    otherwise [FileNotFoundError] for that path is raised after the one
    load, and nothing is positioned. *)
Theorem weapon_init_needs_file (fs : Assets) (p : Player)
    (groups : list string) (tr : list Weapon.Call) :
  ((exists w tr', Weapon.init fs p groups tr = (Ok w, tr')) <->
   is_Some (images fs !! weapon_path p)) /\
  (images fs !! weapon_path p = None ->
   Weapon.init fs p groups tr =
   (Raise (FileNotFoundError (weapon_path p)),
    tr ++ [Weapon.Load (weapon_path p)])) /\
  (forall w tr',
     Weapon.init fs p groups tr = (Ok w, tr') ->
     Weapon.sprite_type w = "weapon"%string /\
     Weapon.groups w = groups /\
     exists iw ih : Z,
       images fs !! weapon_path p = Some (iw, ih) /\
       Weapon.image w = mkSurface (FromFile (weapon_path p)) iw ih).
Proof.
  split; [| split].
  - split.
    + intros (w & tr' & H).
      destruct (images fs !! weapon_path p) eqn:E; [done |].
      by rewrite (weapon_init_missing_file _ _ _ _ E) in H.
    + intros [size H]. by eapply weapon_init_returns.
  - apply weapon_init_missing_file.
  - intros w tr'. rewrite weapon_init_run. unfold image_load.
    destruct (images fs !! weapon_path p) as [[iw ih] |]; [| done].
    destruct (direction_table _) as [[[aw ap] off] |]; cbv beta iota zeta;
      intros H;
      (assert (Weapon.sprite_type w = "weapon"%string /\
               Weapon.groups w = groups /\
               Weapon.image w = mkSurface (FromFile (weapon_path p)) iw ih)
         as (? & ? & ?) by (injection H as <- _; done));
      eauto 6.
Qed.

Lemma classic_in (d : string) :
  In d ["right"; "left"; "up"; "down"]%string \/
  ~ In d ["right"; "left"; "up"; "down"]%string.
Proof.
  destruct (in_dec string_dec d ["right"; "left"; "up"; "down"]%string); auto.
Qed.

(** X23: a sprite that was built has a rectangle exactly when the part of
    the status before the first underscore is right, left, up or down. *)
Theorem weapon_rect_assigned_iff (fs : Assets) (p : Player)
    (groups : list string) (tr tr' : list Weapon.Call) (w : Weapon.t) :
  Weapon.init fs p groups tr = (Ok w, tr') ->
  (is_Some (Weapon.rect w) <->
   In (status_prefix (status p)) ["right"; "left"; "up"; "down"]%string).
Proof.
  rewrite weapon_init_run.
  destruct (image_load fs (weapon_path p)) as [img |]; [| done].
  destruct (direction_table (status_prefix (status p)))
    as [[[aw ap] off] |] eqn:Hd; cbv beta iota zeta; intros H.
  - assert (is_Some (Weapon.rect w)) as Hsome
      by (injection H as <- _; by eexists).
    split; [intros _ | done].
    destruct (classic_in (status_prefix (status p))) as [Hin | Hout];
      [done |].
    apply direction_table_None in Hout. congruence.
  - assert (Weapon.rect w = None) as Hnone by (by injection H as <- _).
    apply direction_table_None in Hd.
    rewrite Hnone. split; [by intros [? ?] | done].
Qed.

Lemma weapon_init_needs_file_witness :
  Weapon.init Sample.files (Sample.player "left_attack") ["visible"%string] [] =
  (Raise (FileNotFoundError (weapon_path (Sample.player "left_attack"))),
   [] ++ [Weapon.Load (weapon_path (Sample.player "left_attack"))]).
Proof.
  apply (proj1 (proj2 (weapon_init_needs_file Sample.files
                         (Sample.player "left_attack")
                         ["visible"%string] []))).
  vm_compute. reflexivity.
Defined.

Lemma weapon_rect_assigned_iff_witness :
  is_Some (Some (mkRect 112 60 20 40)) <->
  In (status_prefix "up_attack") ["right"; "left"; "up"; "down"]%string.
Proof.
  refine (weapon_rect_assigned_iff Sample.files (Sample.player "up_attack")
            ["visible"%string] [] _
            (Weapon.mk "weapon"
               (mkSurface (FromFile "./graphics/weapons/sword/up.png") 20 40)
               (Some (mkRect 112 60 20 40)) ["visible"%string]) _).
  vm_compute. reflexivity.
Defined.

(** X24: only the direction of the status counts.  Two players with the
    same weapon, the same rectangle and statuses that agree before the
    first underscore ([right_idle], [right_attack]) get the same result from
    the constructor: the same sprite, or the same exception. *)
Theorem weapon_status_suffix_irrelevant (fs : Assets) (p1 p2 : Player)
    (groups : list string) (tr : list Weapon.Call) :
  status_prefix (status p1) = status_prefix (status p2) ->
  weapon p1 = weapon p2 ->
  player_rect p1 = player_rect p2 ->
  Weapon.init fs p1 groups tr = Weapon.init fs p2 groups tr.
Proof.
  intros Hs Hw Hr. rewrite !weapon_init_run.
  unfold weapon_path. by rewrite Hs, Hw, Hr.
Qed.

Lemma weapon_status_suffix_irrelevant_witness :
  Weapon.init Sample.files (Sample.player "right_idle") ["visible"%string] [] =
  Weapon.init Sample.files (Sample.player "right_attack") ["visible"%string] [].
Proof.
  apply (weapon_status_suffix_irrelevant Sample.files
           (Sample.player "right_idle") (Sample.player "right_attack")
           ["visible"%string] []);
    reflexivity.
Defined.

(** X25: a placed weapon touches the side of the player it points away
    from, with no gap and no overlap along that axis: facing right its left
    edge is the player's right edge, facing left its right edge is the
    player's left edge, facing up its bottom edge is the player's top edge,
    facing down its top edge is the player's bottom edge. *)
Theorem weapon_touches_player (fs : Assets) (p : Player)
    (groups : list string) (tr tr' : list Weapon.Call) (w : Weapon.t) :
  Weapon.init fs p groups tr = (Ok w, tr') ->
  let prect := player_rect p in
  (status_prefix (status p) = "right"%string ->
   exists r, Weapon.rect w = Some r /\ left r = left prect + width prect) /\
  (status_prefix (status p) = "left"%string ->
   exists r, Weapon.rect w = Some r /\ left r + width r = left prect) /\
  (status_prefix (status p) = "up"%string ->
   exists r, Weapon.rect w = Some r /\ top r + height r = top prect) /\
  (status_prefix (status p) = "down"%string ->
   exists r, Weapon.rect w = Some r /\ top r = top prect + height prect).
Proof.
  intros Hinit prect.
  repeat split; intros Hd;
    (edestruct (weapon_anchor_row fs p groups tr tr' w) as [r [Hr [Ha _]]];
     [by rewrite Hd | exact Hinit |]);
    exists r; (split; [done |]);
    unfold offset in Ha; simpl in Ha; injection Ha as Hx Hy; fold prect in Hx, Hy;
    lia.
Qed.

Lemma weapon_touches_player_witness :
  exists r, Some (mkRect 164 138 40 20) = Some r /\ left r = 100 + 64.
Proof.
  refine (proj1 (weapon_touches_player Sample.files
                   (Sample.player "right_idle") ["visible"%string] [] _
                   (Weapon.mk "weapon"
                      (mkSurface
                         (FromFile "./graphics/weapons/sword/right.png") 40 20)
                      (Some (mkRect 164 138 40 20)) ["visible"%string])
                   _) _);
    vm_compute; reflexivity.
Defined.

(** X26: the direction is what the status says before its first underscore.
    The constructor's first call loads
    [./graphics/weapons/{weapon}/{d}.png] where [d] has no underscore and
    the status is [d] itself or [d] followed by an underscore and more; a
    status with no underscore is its own direction. *)
Theorem weapon_loads_direction (fs : Assets) (p : Player)
    (groups : list string) (tr : list Weapon.Call) :
  exists (d rest : string) (calls : list Weapon.Call),
    status p = (d ++ rest)%string /\
    (rest = EmptyString \/ exists r, rest = String "_" r) /\
    (forall a b : string, d <> (a ++ String "_" b)%string) /\
    snd (Weapon.init fs p groups tr) =
      tr ++ Weapon.Load ("./graphics/weapons/" ++ weapon p ++ "/" ++ d
                         ++ ".png")%string :: calls.
Proof.
  destruct (before_rest "_" (status p)) as [rest [Hs Hrest]].
  exists (status_prefix (status p)), rest.
  rewrite weapon_init_run. fold (weapon_path p).
  destruct (image_load fs (weapon_path p)) as [img |].
  - destruct (direction_table _) as [[[aw ap] off] |]; eexists;
      (split; [exact Hs |]); (split; [exact Hrest |]);
      (split; [apply before_has_no_sep |]); reflexivity.
  - exists []. split; [exact Hs |]. split; [exact Hrest |].
    split; [apply before_has_no_sep | reflexivity].
Qed.
